(** * Marketing-strategy crew script: a shallow embedding and its properties

    The development embeds [crewai/crewai_marketing_strategy.py]: the four
    prompt-formatting tools, the five agent and five task constructors, the
    [main] orchestration and the command-line entry point.  Python values are
    modelled as follows.

    - [str] is [string]; a character is one byte, and [str.lower] acts on
      the ASCII letters.
    - [float] is [pyfloat]: a signed dyadic number [m * 2^e], an infinity
      or a NaN; the format specification [,.0f] is computed exactly.
    - [os.environ] and the file system are finite maps with string keys.
    - A Python function is a computation [M A]: it takes the world, and
      gives back a value or a raised exception together with the new world.
    - What the script cannot decide itself (the configuration module, the
      clock, the language model behind the agents, the operating system's
      answers to [open] and [write], the builtin [float] parser) is read
      from an environment record [Env].
    - [print], [datetime.now], [os.environ] assignment and the constructors
      of the crewai objects always return; [Crew.kickoff], [open],
      [f.write] and [float] may raise.
    - Everything the script does to the outside is appended to a log of
      events, on which the properties are stated. *)

From stdpp Require Import base gmap strings.
From Stdlib Require Import ZArith NArith String Ascii List Bool Lia DecimalString.
From Stdlib Require DecimalN.
Import ListNotations.
Open Scope string_scope.

(** ** Python strings *)

Module PyStr.

(** The one-character string ["\n"]. *)
Definition nl : string := String (ascii_of_nat 10) EmptyString.

(** [s * n] *)
Fixpoint mul (s : string) (n : nat) : string :=
  match n with
  | O => ""
  | S k => s ++ mul s k
  end.

Fixpoint map (f : ascii -> ascii) (s : string) : string :=
  match s with
  | EmptyString => EmptyString
  | String c r => String (f c) (map f r)
  end.

(** [s.replace(old, new)] for one-character [old] and [new]. *)
Definition replace (old new : ascii) (s : string) : string :=
  map (fun c => if Ascii.eqb c old then new else c) s.

Definition lower_char (c : ascii) : ascii :=
  let n := nat_of_ascii c in
  if (65 <=? n)%nat && (n <=? 90)%nat then ascii_of_nat (n + 32) else c.

(** [s.lower()] on a string of ASCII characters: the letters A to Z become
    a to z and every other byte is kept.  Python also lowercases letters
    outside ASCII; what depends on the difference is stated for strings of
    ASCII characters only. *)
Definition lower (s : string) : string := map lower_char s.

(** [sep.join(parts)] *)
Fixpoint join (sep : string) (parts : list string) : string :=
  match parts with
  | [] => ""
  | [p] => p
  | p :: rest => p ++ sep ++ join sep rest
  end.

(** [c in s] for a character [c]. *)
Fixpoint has_char (c : ascii) (s : string) : bool :=
  match s with
  | EmptyString => false
  | String d r => Ascii.eqb d c || has_char c r
  end.

(** [s.startswith(p)] *)
Fixpoint startswith (p s : string) : bool :=
  match p, s with
  | EmptyString, _ => true
  | String a p', String b s' => Ascii.eqb a b && startswith p' s'
  | String _ _, EmptyString => false
  end.

(** [sub in s] *)
Fixpoint occurs (sub s : string) : bool :=
  startswith sub s ||
  match s with
  | EmptyString => false
  | String _ r => occurs sub r
  end.

(** The same as a proposition: [s] is [pre ++ sub ++ post]. *)
Definition contains (sub s : string) : Prop :=
  exists pre post, s = pre ++ sub ++ post.

(** [s.split(sep)] for a one-character [sep]; [cur] holds the characters of
    the part being read, most recent first. *)
Fixpoint split_from (sep : ascii) (cur : string) (s : string) : list string :=
  match s with
  | EmptyString => [cur]
  | String c r =>
      if Ascii.eqb c sep then cur :: split_from sep "" r
      else split_from sep (cur ++ String c "") r
  end.

Definition split (sep : ascii) (s : string) : list string := split_from sep "" s.

End PyStr.

Arguments PyStr.mul : simpl never.
Arguments PyStr.lower : simpl never.
Arguments PyStr.replace : simpl never.

(** ** Python floats and the format specification [,.0f] *)

Module PyFloat.

(** A binary floating-point value: [Finite neg m e] is [(-1)^neg * m * 2^e]. *)
Inductive pyfloat : Type :=
| Finite (neg : bool) (m : N) (e : Z)
| Infinity (neg : bool)
| NaN.

Definition is_finite (x : pyfloat) : bool :=
  match x with Finite _ _ _ => true | _ => false end.

(** The float of a non-negative integer, as in the literal [50000.0]. *)
Definition of_N (n : N) : pyfloat := Finite false n 0.

(** [m * 2^e] rounded to the nearest integer, ties to the even one: the
    rounding of a presentation with zero digits after the point. *)
Definition round_half_even (m : N) (e : Z) : N :=
  match e with
  | Z0 => m
  | Zpos p => (m * 2 ^ Npos p)%N
  | Zneg p =>
      let d := (2 ^ Npos p)%N in
      let q := (m / d)%N in
      let r := (m mod d)%N in
      match (2 * r ?= d)%N with
      | Lt => q
      | Gt => (q + 1)%N
      | Eq => if N.even q then q else (q + 1)%N
      end
  end.

(** The decimal numeral of a natural number. *)
Definition digits (n : N) : string := NilZero.string_of_uint (N.to_uint n).

(** The digits, least significant first, cut into groups of three. *)
Fixpoint chunks_rev (ds : list ascii) : list (list ascii) :=
  match ds with
  | a :: b :: c :: ((_ :: _) as rest) => [a; b; c] :: chunks_rev rest
  | _ => [ds]
  end.

(** The groups of a numeral, most significant first: every group but the
    first has three digits. *)
Definition thousands (s : string) : list string :=
  List.map (fun g => string_of_list_ascii (rev g))
           (rev (chunks_rev (rev (list_ascii_of_string s)))).

(** The [,] option: a comma between the groups of thousands. *)
Definition group_commas (s : string) : string := PyStr.join "," (thousands s).

(** [format(x, ",.0f")] *)
Definition format_comma_0f (x : pyfloat) : string :=
  match x with
  | Finite neg m e =>
      (if neg then "-" else "") ++ group_commas (digits (round_half_even m e))
  | Infinity neg => (if neg then "-" else "") ++ "inf"
  | NaN => "nan"
  end.

End PyFloat.

Arguments PyFloat.format_comma_0f : simpl never.

Import PyStr PyFloat.

(** ** Dates, paths and exceptions *)

(** A [datetime.datetime], down to the second. *)
Record datetime : Type := mk_datetime {
  year : nat; month : nat; day : nat;
  hour : nat; minute : nat; second : nat
}.

Definition digit (n : nat) : ascii := ascii_of_nat (48 + n mod 10).

(** A field on two digits, as [%m], [%d], [%H], [%M] and [%S] print it. *)
Definition pad2 (n : nat) : string :=
  String (digit (n / 10)) (String (digit n) "").

(** The year on four digits, as [%Y] prints it. *)
Definition pad4 (n : nat) : string :=
  String (digit (n / 1000)) (String (digit (n / 100)) (pad2 n)).

Definition directive (d : ascii) (t : datetime) : string :=
  if Ascii.eqb d "Y" then pad4 (year t)
  else if Ascii.eqb d "m" then pad2 (month t)
  else if Ascii.eqb d "d" then pad2 (day t)
  else if Ascii.eqb d "H" then pad2 (hour t)
  else if Ascii.eqb d "M" then pad2 (minute t)
  else if Ascii.eqb d "S" then pad2 (second t)
  else String "%" (String d "").

(** [t.strftime(fmt)] for the directives the script uses. *)
Fixpoint strftime (fmt : string) (t : datetime) : string :=
  match fmt with
  | EmptyString => ""
  | String c r =>
      match r with
      | String d r' =>
          if Ascii.eqb c "%" then directive d t ++ strftime r' t
          else String c (strftime r t)
      | EmptyString => String c ""
      end
  end.

(** A [pathlib.Path] on a POSIX system: its parts, the root ["/"] first
    when the path is absolute. *)
Definition Path : Type := list string.

(** The parts a string contributes to a path: empty parts and ["."] are
    dropped. *)
Definition path_parts (s : string) : list string :=
  List.filter (fun p => negb (String.eqb p "" || String.eqb p "."))
              (split "/" s).

(** [p / s] *)
Definition path_div (p : Path) (s : string) : Path :=
  if startswith "/" s then "/" :: path_parts s else (p ++ path_parts s)%list.

(** [str(p)] *)
Definition path_str (p : Path) : string :=
  match p with
  | "/" :: rest => "/" ++ join "/" rest
  | _ => join "/" p
  end.


(** A raised exception.  [PyException cls msg] is an instance of
    [Exception] of class [cls] whose [str] is [msg]; the other three derive
    from [BaseException] only. *)
Inductive exn : Type :=
| PyException (cls msg : string)
| KeyboardInterrupt
| SystemExit (code : Z)
| GeneratorExit.

(** [isinstance(e, Exception)] *)
Definition is_Exception (e : exn) : bool :=
  match e with PyException _ _ => true | _ => false end.

(** [str(e)] *)
Definition exn_str (e : exn) : string :=
  match e with
  | PyException _ msg => msg
  | KeyboardInterrupt => ""
  | SystemExit code =>
      (if (code <? 0)%Z then "-" else "") ++ digits (Z.abs_N code)
  | GeneratorExit => ""
  end.

(** What a call gives back. *)
Inductive result (A : Type) : Type :=
| Returned (a : A)
| Raised (e : exn).
Arguments Returned {A} a.
Arguments Raised {A} e.

(** ** The crewai objects the script builds *)

(** The four functions decorated with [@tool], as the objects an agent
    holds in its [tools] list. *)
Inductive Tool : Type :=
| research_market_trends_tool
| analyze_competitors_tool
| research_marketing_channels_tool
| calculate_marketing_metrics_tool.

Record Agent : Type := {
  role : string;
  goal : string;
  backstory : string;
  tools : list Tool;
  verbose : bool;
  allow_delegation : bool
}.

Record Task : Type := {
  description : string;
  agent : Agent;
  expected_output : string
}.

Record Crew : Type := {
  agents : list Agent;
  tasks : list Task;
  crew_verbose : bool;
  process : string
}.

(** ** The world and the computations on it *)

(** What the script does to the outside, in order.  A call whose answer
    the script does not decide carries the answer it got. *)
Inductive event : Type :=
| EvPrint (line : string)
| EvValidateConfig (ok : bool)
| EvSetEnv (key value : string)
| EvPrintSummary
| EvAgent (a : Agent)
| EvTask (t : Task)
| EvCrew (c : Crew)
| EvKickoff (c : Crew)
| EvExecute (t : Task) (context : string) (r : result string)
| EvKickoffDone (r : result string)
| EvNow (t : datetime)
| EvOpen (path : string) (r : option exn)
| EvWrite (path data : string) (r : option exn)
| EvClose (path : string)
| EvTraceback (e : exn).

(** The environment variables, the contents of the files the script itself
    opens, the number of clock readings and the log.  A file is known by
    the path string it is opened with: two spellings of one path are two
    keys, and what the libraries write on their own is not recorded. *)
Record World : Type := mk_World {
  environ : gmap string string;
  files : gmap string string;
  now_calls : nat;
  log : list event
}.

Definition emit (e : event) (w : World) : World :=
  mk_World (environ w) (files w) (now_calls w) (log w ++ [e])%list.

(** A Python computation: from a world to a result and the world after. *)
Definition M (A : Type) : Type := World -> result A * World.

Definition ret {A} (a : A) : M A := fun w => (Returned a, w).

Definition bind {A B} (c : M A) (k : A -> M B) : M B :=
  fun w =>
    match c w with
    | (Returned a, w') => k a w'
    | (Raised e, w') => (Raised e, w')
    end.

Definition raise {A} (e : exn) : M A := fun w => (Raised e, w).

Declare Scope py_scope.
Delimit Scope py_scope with py.
Notation "x <- c ;; k" := (bind c (fun x => k))
  (at level 100, c at next level, right associativity) : py_scope.
Notation "c ;; k" := (bind c (fun _ => k))
  (at level 100, right associativity) : py_scope.
Open Scope py_scope.

(** [try: body  except Exception as e: handler(e)] *)
Definition try_except_Exception {A} (body : M A) (handler : exn -> M A) : M A :=
  fun w =>
    match body w with
    | (Raised e, w') => if is_Exception e then handler e w' else (Raised e, w')
    | r => r
    end.

(** [print(line)] *)
Definition print (line : string) : M unit :=
  fun w => (Returned tt, emit (EvPrint line) w).

(** [exit(code)] raises [SystemExit]. *)
Definition py_exit {A} (code : Z) : M A := raise (SystemExit code).

(** [os.environ[key] = value] *)
Definition setenv (key value : string) : M unit :=
  fun w =>
    (Returned tt,
     emit (EvSetEnv key value)
          (mk_World (<[key := value]> (environ w)) (files w) (now_calls w) (log w))).

(** [traceback.print_exc()] *)
Definition print_exc (e : exn) : M unit :=
  fun w => (Returned tt, emit (EvTraceback e) w).

(** The constructors [Agent(...)], [Task(...)] and [Crew(...)]. *)
Definition new_Agent (a : Agent) : M Agent :=
  fun w => (Returned a, emit (EvAgent a) w).
Definition new_Task (t : Task) : M Task :=
  fun w => (Returned t, emit (EvTask t) w).
Definition new_Crew (c : Crew) : M Crew :=
  fun w => (Returned c, emit (EvCrew c) w).

(** ** Tools *)

Definition research_market_trends (product_category target_audience : string) : M string :=
  ret ("
    Research task: Analyze market trends for " ++ product_category ++ " targeting " ++ target_audience ++ ".
    
    Please research and provide:
    1. Current market size and growth projections
    2. Key consumer trends and preferences
    3. Emerging market opportunities
    4. Seasonal patterns and buying behaviors
    5. Demographic and psychographic insights
    6. Market challenges and barriers
    
    Focus on actionable insights for marketing strategy development.
    ").

Definition analyze_competitors (product_name product_category : string) : M string :=
  ret ("
    Research task: Analyze competitors for " ++ product_name ++ " in " ++ product_category ++ ".
    
    Please research and provide:
    1. Main competitors and their market positioning
    2. Competitor marketing messages and value propositions
    3. Competitor channel strategies (social media, advertising, content)
    4. Competitor pricing strategies
    5. Competitor strengths and weaknesses
    6. Market gaps and differentiation opportunities
    
    Focus on insights that inform competitive marketing strategy.
    ").

Definition research_marketing_channels (product_category target_audience : string) : M string :=
  ret ("
    Research task: Identify best marketing channels for " ++ product_category ++ " targeting " ++ target_audience ++ ".
    
    Please research and provide:
    1. Most effective channels for this audience (social media, email, SEO, paid ads, etc.)
    2. Channel performance benchmarks and costs
    3. Best practices for each channel
    4. Channel integration strategies
    5. Emerging channel opportunities
    6. Channel-specific content requirements
    
    Focus on channels that deliver the best ROI for this product and audience.
    ").

Definition calculate_marketing_metrics (budget : pyfloat) (channels : string) : M string :=
  ret ("
    Analysis task: Calculate marketing metrics for $" ++ format_comma_0f budget ++ " budget across " ++ channels ++ ".
    
    Please provide:
    1. Budget allocation recommendations per channel
    2. Expected reach and impressions
    3. Estimated cost per acquisition (CPA)
    4. Projected conversion rates
    5. ROI estimates and benchmarks
    6. Performance tracking recommendations
    
    Use industry benchmarks and realistic projections.
    ").

(** ** Agent definitions *)

(** The object [create_market_research_agent] asks [Agent] for. *)
Definition market_research_agent_of (product_name product_category : string) : Agent :=
  {| role := "Market Research Analyst";
     goal :=
       "Conduct comprehensive market research for " ++ product_name ++ " in the "
       ++ product_category ++ " category. "
       ++ "Analyze target market, competitors, customer personas, and market opportunities. "
       ++ "Provide actionable insights that inform the marketing strategy.";
     backstory :=
       "You are a senior market research analyst with 10+ years of experience in "
       ++ product_category ++ " markets. "
       ++ "You excel at identifying market trends, understanding consumer behavior, and analyzing competitive landscapes. "
       ++ "You have a proven track record of uncovering insights that drive successful marketing strategies. "
       ++ "You use data-driven approaches and always validate your findings with multiple sources. "
       ++ "Your research is thorough, accurate, and focused on actionable insights for marketing teams.";
     tools := [research_market_trends_tool; analyze_competitors_tool];
     verbose := true;
     allow_delegation := false |}.

Definition create_market_research_agent (product_name product_category : string) : M Agent :=
  new_Agent (market_research_agent_of product_name product_category).

(** The object [create_content_strategist_agent] asks [Agent] for. *)
Definition content_strategist_agent_of (product_name target_audience : string) : Agent :=
  {| role := "Content Strategist";
     goal :=
       "Develop compelling messaging, content themes, and brand voice for " ++ product_name
       ++ " targeting " ++ target_audience
       ++ ". Create content strategies that resonate with the target audience and differentiate the product in the market.";
     backstory :=
       "You are an expert content strategist specializing in " ++ target_audience ++ " marketing. "
       ++ "You have a deep understanding of how to craft messages that connect with audiences emotionally and logically. "
       ++ "You excel at developing brand voices, content themes, and messaging frameworks that drive engagement and conversions. "
       ++ "You understand the nuances of different content formats and how to adapt messaging across channels. "
       ++ "Your strategies are creative, data-informed, and aligned with business objectives.";
     tools := [research_market_trends_tool];
     verbose := true;
     allow_delegation := false |}.

Definition create_content_strategist_agent (product_name target_audience : string) : M Agent :=
  new_Agent (content_strategist_agent_of product_name target_audience).

(** The object [create_channel_specialist_agent] asks [Agent] for. *)
Definition channel_specialist_agent_of (product_category target_audience : string) : Agent :=
  {| role := "Marketing Channel Specialist";
     goal :=
       "Identify the most effective marketing channels and tactics for " ++ product_category
       ++ " targeting " ++ target_audience
       ++ ". Recommend channel strategies that maximize reach, engagement, and ROI.";
     backstory :=
       "You are a marketing channel expert with extensive experience in " ++ product_category
       ++ " marketing. "
       ++ "You understand the strengths and limitations of each marketing channel (social media, email, SEO, PPC, content, etc.). "
       ++ "You know which channels work best for different audiences and how to integrate multiple channels effectively. "
       ++ "You stay current with channel trends, algorithm changes, and emerging opportunities. "
       ++ "Your recommendations are based on data, industry best practices, and proven results.";
     tools := [research_marketing_channels_tool];
     verbose := true;
     allow_delegation := false |}.

Definition create_channel_specialist_agent (product_category target_audience : string) : M Agent :=
  new_Agent (channel_specialist_agent_of product_category target_audience).

(** The object [create_campaign_planner_agent] asks [Agent] for. *)
Definition campaign_planner_agent_of (product_name target_audience : string) : Agent :=
  {| role := "Campaign Planner";
     goal :=
       "Create detailed, actionable marketing campaign plans for " ++ product_name ++ " targeting "
       ++ target_audience
       ++ ". Develop campaign timelines, tactics, and execution strategies that align with marketing objectives.";
     backstory :=
       "You are a strategic campaign planner with expertise in developing end-to-end marketing campaigns. "
       ++ "You excel at translating marketing strategies into actionable campaign plans with clear timelines and milestones. "
       ++ "You understand how to sequence activities, coordinate across channels, and optimize for maximum impact. "
       ++ "You create realistic timelines, identify dependencies, and plan for contingencies. "
       ++ "Your campaigns are well-structured, measurable, and designed for success.";
     tools := [];
     verbose := true;
     allow_delegation := false |}.

Definition create_campaign_planner_agent (product_name target_audience : string) : M Agent :=
  new_Agent (campaign_planner_agent_of product_name target_audience).

(** The object [create_budget_analyst_agent] asks [Agent] for. *)
Definition budget_analyst_agent_of (product_category : string) : Agent :=
  {| role := "Marketing Budget Analyst";
     goal :=
       "Allocate marketing budget effectively across channels and activities for "
       ++ product_category ++ " products. "
       ++ "Calculate ROI projections, cost estimates, and provide budget optimization recommendations.";
     backstory :=
       "You are a marketing finance expert specializing in budget allocation and ROI analysis for "
       ++ product_category ++ " markets. "
       ++ "You have deep knowledge of marketing costs, performance benchmarks, and ROI calculations. "
       ++ "You excel at optimizing budget allocation to maximize marketing effectiveness. "
       ++ "You understand the relationship between spend and results across different channels and tactics. "
       ++ "Your budget recommendations are data-driven, realistic, and focused on achieving marketing objectives efficiently.";
     tools := [calculate_marketing_metrics_tool];
     verbose := true;
     allow_delegation := false |}.

Definition create_budget_analyst_agent (product_category : string) : M Agent :=
  new_Agent (budget_analyst_agent_of product_category).

(** ** Task definitions *)

(** The object [create_market_research_task] asks [Task] for. *)
Definition market_research_task_of (market_research_agent : Agent)
    (product_name product_category target_audience product_description : string) : Task :=
  {| description :=
       "Conduct comprehensive market research for " ++ product_name ++ " (" ++ product_category
       ++ "). Product description: " ++ product_description ++ ". Target audience: "
       ++ target_audience ++ ". " ++ nl ++ nl ++ "Your research should include:" ++ nl
       ++ "1. Target market analysis (size, demographics, psychographics, behaviors)" ++ nl
       ++ "2. Competitive landscape analysis (main competitors, their positioning, strengths/weaknesses)"
       ++ nl ++ "3. Customer persona development (2-3 detailed personas)" ++ nl
       ++ "4. Market opportunities and gaps" ++ nl
       ++ "5. Key market trends affecting this product category" ++ nl
       ++ "6. Market challenges and barriers to entry" ++ nl ++ nl
       ++ "Provide actionable insights that will inform the marketing strategy.";
     agent := market_research_agent;
     expected_output :=
       "A comprehensive market research report including target market analysis, competitive landscape, customer personas, market opportunities, trends, and challenges for "
       ++ product_name ++ " in the " ++ product_category ++ " category." |}.

Definition create_market_research_task (market_research_agent : Agent)
    (product_name product_category target_audience product_description : string) : M Task :=
  new_Task (market_research_task_of market_research_agent product_name product_category target_audience product_description).

(** The object [create_content_strategy_task] asks [Task] for. *)
Definition content_strategy_task_of (content_strategist_agent : Agent)
    (product_name product_description target_audience unique_value_proposition : string) : Task :=
  {| description :=
       "Develop a comprehensive content strategy for " ++ product_name ++ ". Product: "
       ++ product_description ++ ". Target audience: " ++ target_audience
       ++ ". Unique value proposition: " ++ unique_value_proposition ++ ". " ++ nl ++ nl
       ++ "Your content strategy should include:" ++ nl
       ++ "1. Core messaging framework (key messages, value propositions, differentiators)" ++ nl
       ++ "2. Brand voice and tone guidelines" ++ nl
       ++ "3. Content themes and topics (5-7 main themes)" ++ nl
       ++ "4. Content formats and types (blog posts, videos, social media, etc.)" ++ nl
       ++ "5. Content pillars that support marketing objectives" ++ nl
       ++ "6. Messaging variations for different channels and audiences" ++ nl ++ nl
       ++ "Ensure messaging resonates with the target audience and differentiates the product.";
     agent := content_strategist_agent;
     expected_output :=
       "A comprehensive content strategy document including messaging framework, brand voice, content themes, formats, and channel-specific messaging for "
       ++ product_name ++ "." |}.

Definition create_content_strategy_task (content_strategist_agent : Agent)
    (product_name product_description target_audience unique_value_proposition : string) : M Task :=
  new_Task (content_strategy_task_of content_strategist_agent product_name product_description target_audience unique_value_proposition).

(** The object [create_channel_strategy_task] asks [Task] for. *)
Definition channel_strategy_task_of (channel_specialist_agent : Agent)
    (product_name product_category target_audience marketing_objectives : string) : Task :=
  {| description :=
       "Develop a marketing channel strategy for " ++ product_name ++ " (" ++ product_category
       ++ "). Target audience: " ++ target_audience ++ ". Marketing objectives: "
       ++ marketing_objectives ++ ". " ++ nl ++ nl ++ "Your channel strategy should include:" ++ nl
       ++ "1. Recommended marketing channels (prioritized list with rationale)" ++ nl
       ++ "2. Channel-specific tactics and approaches" ++ nl
       ++ "3. Channel integration strategy (how channels work together)" ++ nl
       ++ "4. Channel performance expectations and KPIs" ++ nl
       ++ "5. Channel-specific content requirements" ++ nl ++ "6. Emerging channel opportunities"
       ++ nl ++ nl
       ++ "Focus on channels that best reach the target audience and achieve marketing objectives.";
     agent := channel_specialist_agent;
     expected_output :=
       "A comprehensive channel strategy document including recommended channels, tactics, integration approach, KPIs, and content requirements for "
       ++ product_name ++ "." |}.

Definition create_channel_strategy_task (channel_specialist_agent : Agent)
    (product_name product_category target_audience marketing_objectives : string) : M Task :=
  new_Task (channel_strategy_task_of channel_specialist_agent product_name product_category target_audience marketing_objectives).

(** The object [create_campaign_plan_task] asks [Task] for. *)
Definition campaign_plan_task_of (campaign_planner_agent : Agent)
    (product_name target_audience campaign_timeline marketing_objectives : string) : Task :=
  {| description :=
       "Create a detailed marketing campaign plan for " ++ product_name ++ " targeting "
       ++ target_audience ++ ". Campaign timeline: " ++ campaign_timeline
       ++ ". Marketing objectives: " ++ marketing_objectives ++ ". " ++ nl ++ nl
       ++ "Your campaign plan should include:" ++ nl
       ++ "1. Campaign phases and timeline (with specific dates/milestones)" ++ nl
       ++ "2. Campaign tactics and activities for each phase" ++ nl
       ++ "3. Channel-specific campaign activities" ++ nl
       ++ "4. Success metrics and KPIs for each phase" ++ nl
       ++ "5. Resource requirements and dependencies" ++ nl ++ "6. Risk mitigation strategies" ++ nl
       ++ "7. Campaign launch checklist" ++ nl ++ nl
       ++ "Create an actionable, realistic campaign plan that can be executed.";
     agent := campaign_planner_agent;
     expected_output :=
       "A detailed marketing campaign plan including phases, timeline, tactics, metrics, resources, and execution strategy for "
       ++ product_name ++ "." |}.

Definition create_campaign_plan_task (campaign_planner_agent : Agent)
    (product_name target_audience campaign_timeline marketing_objectives : string) : M Task :=
  new_Task (campaign_plan_task_of campaign_planner_agent product_name target_audience campaign_timeline marketing_objectives).

(** The object [create_budget_allocation_task] asks [Task] for. *)
Definition budget_allocation_task_of (budget_analyst_agent : Agent)
    (product_name : string) (total_budget : pyfloat)
    (marketing_objectives campaign_timeline : string) : Task :=
  {| description :=
       "Allocate marketing budget for " ++ product_name ++ " campaign. Total budget: $"
       ++ format_comma_0f total_budget ++ ". Marketing objectives: " ++ marketing_objectives
       ++ ". Campaign timeline: " ++ campaign_timeline ++ ". " ++ nl ++ nl
       ++ "Your budget allocation should include:" ++ nl
       ++ "1. Budget breakdown by channel (with percentages and dollar amounts)" ++ nl
       ++ "2. Budget allocation by campaign phase/timeline" ++ nl
       ++ "3. Cost estimates for key activities (advertising, content creation, tools, etc.)" ++ nl
       ++ "4. Expected ROI and performance metrics for each channel" ++ nl
       ++ "5. Budget optimization recommendations" ++ nl ++ "6. Contingency planning (10-15% buffer)"
       ++ nl ++ "7. Cost-saving opportunities" ++ nl ++ nl
       ++ "Ensure budget allocation maximizes ROI and supports marketing objectives.";
     agent := budget_analyst_agent;
     expected_output :=
       "A comprehensive budget allocation plan including channel breakdown, timeline allocation, cost estimates, ROI projections, and optimization recommendations for the "
       ++ product_name ++ " marketing campaign." |}.

Definition create_budget_allocation_task (budget_analyst_agent : Agent)
    (product_name : string) (total_budget : pyfloat)
    (marketing_objectives campaign_timeline : string) : M Task :=
  new_Task (budget_allocation_task_of budget_analyst_agent product_name total_budget marketing_objectives campaign_timeline).

(** ** The environment *)

(** The answers of everything the script calls but does not define. *)
Record Env : Type := {
  (** [shared_config.validate_config()] *)
  validate_config_result : bool;
  (** The attributes of [shared_config.Config] that [main] reads. *)
  Config_API_KEY : string;
  Config_API_BASE : string;
  Config_USE_GROQ : bool;
  Config_OPENAI_MODEL : string;
  (** [Path(__file__).parent] *)
  script_dir : Path;
  (** What the n-th call of [datetime.now()] returns. *)
  clock : nat -> datetime;
  (** The text the agent of a task produces from the task and the context
      handed to it, or the exception the attempt ends in. *)
  execute_task : Task -> string -> result string;
  (** The exception [open(path, "w")] ends in, if any. *)
  os_open : string -> option exn;
  (** The exception writing [data] to the file at [path], which holds
      [content], ends in, if any. *)
  os_write : string -> string -> string -> option exn;
  (** The builtin [float] on a string: [None] when it raises [ValueError]. *)
  float_of_str : string -> option pyfloat
}.

Section Script.

Variable E : Env.

(** [validate_config()] *)
Definition validate_config : M bool :=
  fun w =>
    (Returned (validate_config_result E),
     emit (EvValidateConfig (validate_config_result E)) w).

(** [Config.print_summary()] *)
Definition Config_print_summary : M unit :=
  fun w => (Returned tt, emit EvPrintSummary w).

(** [datetime.now()] *)
Definition datetime_now : M datetime :=
  fun w =>
    let t := clock E (now_calls w) in
    (Returned t,
     emit (EvNow t) (mk_World (environ w) (files w) (S (now_calls w)) (log w))).

(** [f.write(data)] on the file opened at path [f]. *)
Definition f_write (f : string) (data : string) : M unit :=
  fun w =>
    let content := default "" (files w !! f) in
    match os_write E f content data with
    | Some e => (Raised e, emit (EvWrite f data (Some e)) w)
    | None =>
        (Returned tt,
         emit (EvWrite f data None)
              (mk_World (environ w) (<[f := content ++ data]> (files w))
                        (now_calls w) (log w)))
    end.

(** [with open(path, "w", encoding="utf-8") as f: body]: the file is
    created or truncated, and closed however the body ends. *)
Definition with_open_w (path : string) (body : string -> M unit) : M unit :=
  fun w =>
    match os_open E path with
    | Some e => (Raised e, emit (EvOpen path (Some e)) w)
    | None =>
        let w1 :=
          emit (EvOpen path None)
               (mk_World (environ w) (<[path := ""]> (files w))
                         (now_calls w) (log w)) in
        match body path w1 with
        | (r, w2) => (r, emit (EvClose path) w2)
        end
    end.

(** [float(s)] *)
Definition py_float (s : string) : M pyfloat :=
  match float_of_str E s with
  | Some x => ret x
  | None =>
      raise (PyException "ValueError"
               ("could not convert string to float: '" ++ s ++ "'"))
  end.

(** One task, executed by its agent on the context it is handed. *)
Definition execute (t : Task) (context : string) : M string :=
  fun w =>
    let r := execute_task E t context in
    (r, emit (EvExecute t context r) w).

(** The tasks of a sequential crew, in order: each is handed the output of
    the one before it, and the first exception ends the run. *)
Fixpoint run_tasks (ts : list Task) (context : string) : M (list string) :=
  match ts with
  | [] => ret []
  | t :: rest =>
      out <- execute t context ;;
      outs <- run_tasks rest out ;;
      ret (out :: outs)
  end.

(** Modelled from the spec: [Crew.kickoff] for [process="sequential"].  The
    crewai library is not part of the repository; the spec describes the
    crew as "a sequential orchestration that hands the output of each role
    to the next", whose "concatenated result" the script writes, and the
    source comments the process as "Tasks execute in order, each building on
    previous outputs".  The value returned stands for [str(result)]. *)
Definition kickoff (c : Crew) : M string :=
  fun w =>
    match run_tasks (tasks c) "" (emit (EvKickoff c) w) with
    | (Returned outs, w') =>
        let r := String.concat "" outs in
        (Returned r, emit (EvKickoffDone (Returned r)) w')
    | (Raised e, w') => (Raised e, emit (EvKickoffDone (Raised e)) w')
    end.

(** ** Crew orchestration *)

(** The body of the [with] statement of [main]: the report, written to the
    open file [f]. *)
Definition write_report (f : string)
    (product_name product_category target_audience campaign_timeline : string)
    (total_budget : pyfloat) (result : string) : M unit :=
  f_write f (mul "=" 80 ++ nl) ;;
  f_write f ("MARKETING STRATEGY REPORT" ++ nl) ;;
  f_write f (mul "=" 80 ++ nl ++ nl) ;;
  f_write f ("Product: " ++ product_name ++ nl) ;;
  f_write f ("Category: " ++ product_category ++ nl) ;;
  f_write f ("Target Audience: " ++ target_audience ++ nl) ;;
  f_write f ("Budget: $" ++ format_comma_0f total_budget ++ nl) ;;
  f_write f ("Timeline: " ++ campaign_timeline ++ nl) ;;
  generated <- datetime_now ;;
  f_write f ("Generated: " ++ strftime "%Y-%m-%d %H:%M:%S" generated ++ nl ++ nl) ;;
  f_write f (mul "=" 80 ++ nl) ;;
  f_write f ("COMPREHENSIVE MARKETING STRATEGY" ++ nl) ;;
  f_write f (mul "=" 80 ++ nl ++ nl) ;;
  f_write f result ;;
  f_write f (nl ++ mul "=" 80 ++ nl).

(** The name of the report file. *)
Definition report_name (product_name : string) (now : datetime) : string :=
  "marketing_strategy_" ++ lower (replace " " "_" product_name)
  ++ "_" ++ strftime "%Y%m%d_%H%M%S" now ++ ".txt".

(** The body of the [try] statement of [main]. *)
Definition execute_crew (crew : Crew)
    (product_name product_category target_audience campaign_timeline : string)
    (total_budget : pyfloat) : M unit :=
  result <- kickoff crew ;;

  print "" ;;
  print (mul "=" 80) ;;
  print "✅ Marketing Strategy Development Completed Successfully!" ;;
  print (mul "=" 80) ;;
  print "" ;;

  (* Save output to file *)
  let output_dir := script_dir E in
  timestamp_now <- datetime_now ;;
  let output_filename := path_div output_dir (report_name product_name timestamp_now) in

  with_open_w (path_str output_filename) (fun f =>
    write_report f product_name product_category target_audience campaign_timeline
                 total_budget result) ;;

  print ("✅ Marketing strategy saved to: " ++ path_str output_filename) ;;
  print "" ;;
  print "📋 Strategy includes:" ;;
  print "   • Market research and competitive analysis" ;;
  print "   • Content strategy and messaging framework" ;;
  print "   • Channel strategy and recommendations" ;;
  print "   • Detailed campaign plan with timeline" ;;
  print "   • Budget allocation and ROI projections" ;;
  print "".

(** The [except Exception as e] clause of [main]. *)
Definition report_error (e : exn) : M unit :=
  print (nl ++ "❌ Error during crew execution: " ++ exn_str e) ;;
  print (nl ++ "🔍 Troubleshooting:") ;;
  print "   1. Verify OPENAI_API_KEY is set in parent directory .env file" ;;
  print "   2. Check API key is valid and has sufficient credits" ;;
  print "   3. Verify internet connection" ;;
  print "" ;;
  print_exc e.

Definition main
    (product_name product_category product_description target_audience
     unique_value_proposition marketing_objectives campaign_timeline : string)
    (total_budget : pyfloat) : M unit :=
  print (mul "=" 80) ;;
  print "CrewAI Multi-Agent Marketing Strategy Development System" ;;
  print (mul "=" 80) ;;
  print "" ;;
  print ("📦 Product: " ++ product_name) ;;
  print ("🏷️  Category: " ++ product_category) ;;
  print ("🎯 Target Audience: " ++ target_audience) ;;
  print ("💰 Budget: $" ++ format_comma_0f total_budget) ;;
  print ("📅 Timeline: " ++ campaign_timeline) ;;
  print "" ;;

  (* Validate configuration *)
  print "🔍 Validating configuration..." ;;
  ok <- validate_config ;;
  (if negb ok then
     print "❌ Configuration validation failed. Please set up your .env file." ;;
     py_exit 1
   else ret tt) ;;

  (* Set environment variables for CrewAI *)
  setenv "OPENAI_API_KEY" (Config_API_KEY E) ;;
  setenv "OPENAI_API_BASE" (Config_API_BASE E) ;;

  (if Config_USE_GROQ E then
     setenv "OPENAI_MODEL_NAME" (Config_OPENAI_MODEL E)
   else ret tt) ;;

  print "✅ Configuration validated successfully!" ;;
  print "" ;;
  Config_print_summary ;;
  print "" ;;

  (* Create agents *)
  print "[1/5] Creating Market Research Analyst Agent..." ;;
  market_research_agent <- create_market_research_agent product_name product_category ;;

  print "[2/5] Creating Content Strategist Agent..." ;;
  content_strategist_agent <- create_content_strategist_agent product_name target_audience ;;

  print "[3/5] Creating Marketing Channel Specialist Agent..." ;;
  channel_specialist_agent <- create_channel_specialist_agent product_category target_audience ;;

  print "[4/5] Creating Campaign Planner Agent..." ;;
  campaign_planner_agent <- create_campaign_planner_agent product_name target_audience ;;

  print "[5/5] Creating Marketing Budget Analyst Agent..." ;;
  budget_analyst_agent <- create_budget_analyst_agent product_category ;;

  print (nl ++ "✅ All agents created successfully!") ;;
  print "" ;;

  (* Create tasks *)
  print "Creating tasks for the crew..." ;;
  market_research_task <-
    create_market_research_task
      market_research_agent product_name product_category target_audience product_description ;;

  content_strategy_task <-
    create_content_strategy_task
      content_strategist_agent product_name product_description target_audience
      unique_value_proposition ;;

  channel_strategy_task <-
    create_channel_strategy_task
      channel_specialist_agent product_name product_category target_audience
      marketing_objectives ;;

  campaign_plan_task <-
    create_campaign_plan_task
      campaign_planner_agent product_name target_audience campaign_timeline
      marketing_objectives ;;

  budget_allocation_task <-
    create_budget_allocation_task
      budget_analyst_agent product_name total_budget marketing_objectives campaign_timeline ;;

  print "Tasks created successfully!" ;;
  print "" ;;

  (* Create the crew with sequential task execution *)
  print "Forming the Marketing Strategy Crew..." ;;
  crew <-
    new_Crew
      {| agents :=
           [ market_research_agent;
             content_strategist_agent;
             channel_specialist_agent;
             campaign_planner_agent;
             budget_analyst_agent ];
         tasks :=
           [ market_research_task;
             content_strategy_task;
             channel_strategy_task;
             campaign_plan_task;
             budget_allocation_task ];
         crew_verbose := true;
         process := "sequential" |} ;;

  print "Crew formed successfully!" ;;
  print "" ;;
  print (mul "=" 80) ;;
  print "Starting Marketing Strategy Development..." ;;
  print (mul "=" 80) ;;
  print "" ;;

  (* Execute the crew *)
  try_except_Exception
    (execute_crew crew product_name product_category target_audience campaign_timeline
                  total_budget)
    report_error.

(** ** The command line *)

(** The dictionary [kwargs] of the [__main__] block: its keys are fixed. *)
Record Kwargs : Type := mk_Kwargs {
  product_name : string;
  product_category : string;
  product_description : string;
  target_audience : string;
  unique_value_proposition : string;
  marketing_objectives : string;
  campaign_timeline : string;
  total_budget : pyfloat
}.

(** [main] called with the dictionary unpacked into keyword arguments. *)
Definition main_kwargs (kw : Kwargs) : M unit :=
  main (product_name kw) (product_category kw) (product_description kw)
       (target_audience kw) (unique_value_proposition kw)
       (marketing_objectives kw) (campaign_timeline kw) (total_budget kw).

Definition default_kwargs : Kwargs :=
  {| product_name := "AI-Powered Task Manager";
     product_category := "Productivity Software";
     product_description :=
       "An AI-powered task management application that helps teams organize, prioritize, and complete work more efficiently";
     target_audience := "Small to medium-sized business teams and remote workers";
     unique_value_proposition :=
       "Intelligent task prioritization using AI, seamless team collaboration, and automated workflow optimization";
     marketing_objectives :=
       "Increase brand awareness, generate qualified leads, and drive product sign-ups";
     campaign_timeline := "3 months (Q1 launch campaign)";
     total_budget := of_N 50000 |}.

Definition set_product_name (v : string) (kw : Kwargs) : Kwargs :=
  mk_Kwargs v (product_category kw) (product_description kw) (target_audience kw)
            (unique_value_proposition kw) (marketing_objectives kw)
            (campaign_timeline kw) (total_budget kw).

Definition set_product_category (v : string) (kw : Kwargs) : Kwargs :=
  mk_Kwargs (product_name kw) v (product_description kw) (target_audience kw)
            (unique_value_proposition kw) (marketing_objectives kw)
            (campaign_timeline kw) (total_budget kw).

Definition set_total_budget (v : pyfloat) (kw : Kwargs) : Kwargs :=
  mk_Kwargs (product_name kw) (product_category kw) (product_description kw)
            (target_audience kw) (unique_value_proposition kw)
            (marketing_objectives kw) (campaign_timeline kw) v.

(** [sys.argv[i]] for an index known to be in range. *)
Definition argv_at (argv : list string) (i : nat) : string := nth i argv "".

(** The arguments [main] is called with, or the exception parsing them
    ends in. *)
Definition parse_args (argv : list string) : M Kwargs :=
  let kwargs := default_kwargs in
  let kwargs :=
    if (1 <? length argv)%nat then set_product_name (argv_at argv 1) kwargs
    else kwargs in
  let kwargs :=
    if (2 <? length argv)%nat then set_product_category (argv_at argv 2) kwargs
    else kwargs in
  if (3 <? length argv)%nat then
    budget <- py_float (argv_at argv 3) ;;
    ret (set_total_budget budget kwargs)
  else ret kwargs.

(** The [if __name__ == "__main__":] block. *)
Definition script (argv : list string) : M unit :=
  kwargs <- parse_args argv ;;
  main_kwargs kwargs.

(** The exit status of the interpreter: 0 when the script runs to its end,
    the code of a [SystemExit], and 1 for any other exception that reaches
    the top level. *)
Definition exit_status (r : result unit) : Z :=
  match r with
  | Returned _ => 0
  | Raised (SystemExit code) => code
  | Raised _ => 1
  end.

End Script.

(** * Runs, traces and observations *)

(** ** The decimal numeral and its groups of thousands *)

(** Every character of [s] satisfies [p]. *)
Fixpoint all_chars (p : ascii -> bool) (s : string) : bool :=
  match s with
  | EmptyString => true
  | String c r => p c && all_chars p r
  end.

Definition is_digit (c : ascii) : bool :=
  let n := nat_of_ascii c in (48 <=? n)%nat && (n <=? 57)%nat.

Definition is_digit_or_comma (c : ascii) : bool :=
  is_digit c || Ascii.eqb c ",".

(** *** The number a numeral stands for *)

(** The value of a decimal numeral read from the left, [acc] being the
    value of the digits already read. *)
Fixpoint value_from (acc : N) (s : string) : N :=
  match s with
  | EmptyString => acc
  | String c r => value_from (10 * acc + (N.of_nat (nat_of_ascii c) - 48)) r
  end.

Definition decimal_value (s : string) : N := value_from 0 s.

(** ** Tools *)

(** A computation that returns the same value in every world, raises
    nothing and leaves the world as it found it: nothing is logged, and the
    environment variables, the files and the clock are not touched. *)
Definition pure_call {A} (c : M A) : Prop :=
  exists v, forall w, c w = (Returned v, w).

(** ** Worlds and runs *)

(** The world with more events in its log. *)
Definition extend (w : World) (evs : list event) : World :=
  mk_World (environ w) (files w) (now_calls w) (log w ++ evs)%list.

(** The events a computation adds to the log of the world it starts in. *)
Definition events_of {A} (c : M A) (w : World) : list event :=
  drop (length (log w)) (log (snd (c w))).

(** ** Configuration *)

(** The events by which the script creates an agent, a task or a crew, runs
    the crew, sets an environment variable or touches a file. *)
Definition acts (e : event) : bool :=
  match e with
  | EvPrint _ | EvValidateConfig _ | EvPrintSummary | EvTraceback _ => false
  | _ => true
  end.

(** ** What a run of [main] logs *)

(** The objects [main] builds from its arguments. *)
Definition five_agents (kw : Kwargs) : list Agent :=
  [ market_research_agent_of (product_name kw) (product_category kw);
    content_strategist_agent_of (product_name kw) (target_audience kw);
    channel_specialist_agent_of (product_category kw) (target_audience kw);
    campaign_planner_agent_of (product_name kw) (target_audience kw);
    budget_analyst_agent_of (product_category kw) ].

Definition five_tasks (kw : Kwargs) : list Task :=
  [ market_research_task_of
      (market_research_agent_of (product_name kw) (product_category kw))
      (product_name kw) (product_category kw) (target_audience kw)
      (product_description kw);
    content_strategy_task_of
      (content_strategist_agent_of (product_name kw) (target_audience kw))
      (product_name kw) (product_description kw) (target_audience kw)
      (unique_value_proposition kw);
    channel_strategy_task_of
      (channel_specialist_agent_of (product_category kw) (target_audience kw))
      (product_name kw) (product_category kw) (target_audience kw)
      (marketing_objectives kw);
    campaign_plan_task_of
      (campaign_planner_agent_of (product_name kw) (target_audience kw))
      (product_name kw) (target_audience kw) (campaign_timeline kw)
      (marketing_objectives kw);
    budget_allocation_task_of
      (budget_analyst_agent_of (product_category kw))
      (product_name kw) (total_budget kw) (marketing_objectives kw)
      (campaign_timeline kw) ].

Definition crew_of (kw : Kwargs) : Crew :=
  {| agents := five_agents kw;
     tasks := five_tasks kw;
     crew_verbose := true;
     process := "sequential" |}.

(** The environment variables after the configuration is copied to them. *)
Definition setup_environ (E : Env) (env : gmap string string)
  : gmap string string :=
  let env := <["OPENAI_API_BASE" := Config_API_BASE E]>
               (<["OPENAI_API_KEY" := Config_API_KEY E]> env) in
  if Config_USE_GROQ E then <["OPENAI_MODEL_NAME" := Config_OPENAI_MODEL E]> env
  else env.

Definition is_print (e : event) : bool :=
  match e with EvPrint _ => true | _ => false end.

(** The events that are not prints. *)
Definition quiet (evs : list event) : list event :=
  List.filter (fun e => negb (is_print e)) evs.

(** What [main] logs before the [try] statement, prints left out. *)
Definition setup_steps (E : Env) (kw : Kwargs) : list event :=
  (EvValidateConfig true
   :: EvSetEnv "OPENAI_API_KEY" (Config_API_KEY E)
   :: EvSetEnv "OPENAI_API_BASE" (Config_API_BASE E)
   :: (if Config_USE_GROQ E
       then [EvSetEnv "OPENAI_MODEL_NAME" (Config_OPENAI_MODEL E)] else [])
   ++ EvPrintSummary
   :: List.map EvAgent (five_agents kw)
   ++ List.map EvTask (five_tasks kw)
   ++ [EvCrew (crew_of kw)])%list.

(** *** The crew *)

(** What the tasks of a sequential crew log and give back. *)
Fixpoint exec_trace (E : Env) (ts : list Task) (context : string)
  : list event * result (list string) :=
  match ts with
  | [] => ([], Returned [])
  | t :: rest =>
      match execute_task E t context with
      | Returned out =>
          let '(evs, r) := exec_trace E rest out in
          (EvExecute t context (Returned out) :: evs,
           match r with
           | Returned outs => Returned (out :: outs)
           | Raised e => Raised e
           end)
      | Raised e => ([EvExecute t context (Raised e)], Raised e)
      end
  end.

(** What [kickoff] logs and gives back. *)
Definition kickoff_trace (E : Env) (c : Crew) : list event * result string :=
  let '(evs, r) := exec_trace E (tasks c) "" in
  let r' := match r with
            | Returned outs => Returned (String.concat "" outs)
            | Raised e => Raised e
            end in
  ((EvKickoff c :: evs ++ [EvKickoffDone r'])%list, r').

(** *** The report *)

(** What a sequence of writes to the file at [f], which holds [content],
    logs, leaves in the file and ends in. *)
Fixpoint write_trace (E : Env) (f content : string) (datas : list string)
  : list event * string * option exn :=
  match datas with
  | [] => ([], content, None)
  | d :: rest =>
      match os_write E f content d with
      | Some e => ([EvWrite f d (Some e)], content, Some e)
      | None =>
          let '(evs, c, r) := write_trace E f (content ++ d) rest in
          (EvWrite f d None :: evs, c, r)
      end
  end.

(** A sequence of writes followed by [k]. *)
Fixpoint write_then (E : Env) (f : string) (datas : list string) (k : M unit)
  : M unit :=
  match datas with
  | [] => k
  | d :: rest => f_write E f d ;; write_then E f rest k
  end.

(** The world after writes to [f]. *)
Definition written (w : World) (f content : string) (evs : list event) : World :=
  mk_World (environ w) (<[f := content]> (files w)) (now_calls w)
           (log w ++ evs)%list.

(** The lines of the report before and after the time of generation. *)
Definition header_lines
    (product_name product_category target_audience campaign_timeline : string)
    (total_budget : pyfloat) : list string :=
  [ mul "=" 80 ++ nl;
    "MARKETING STRATEGY REPORT" ++ nl;
    mul "=" 80 ++ nl ++ nl;
    "Product: " ++ product_name ++ nl;
    "Category: " ++ product_category ++ nl;
    "Target Audience: " ++ target_audience ++ nl;
    "Budget: $" ++ format_comma_0f total_budget ++ nl;
    "Timeline: " ++ campaign_timeline ++ nl ].

Definition body_lines (generated : datetime) (result : string) : list string :=
  [ "Generated: " ++ strftime "%Y-%m-%d %H:%M:%S" generated ++ nl ++ nl;
    mul "=" 80 ++ nl;
    "COMPREHENSIVE MARKETING STRATEGY" ++ nl;
    mul "=" 80 ++ nl ++ nl;
    result;
    nl ++ mul "=" 80 ++ nl ].

(** What [write_report] logs, leaves in the file and ends in, when the
    clock has been read [n] times. *)
Definition report_trace (E : Env) (f : string) (n : nat) (kw : Kwargs)
    (result : string) : list event * string * nat * option exn :=
  match write_trace E f ""
          (header_lines (product_name kw) (product_category kw)
                        (target_audience kw) (campaign_timeline kw)
                        (total_budget kw)) with
  | (evs1, c1, Some e) => (evs1, c1, n, Some e)
  | (evs1, c1, None) =>
      match write_trace E f c1 (body_lines (clock E n) result) with
      | (evs2, c2, r) => ((evs1 ++ EvNow (clock E n) :: evs2)%list, c2, S n, r)
      end
  end.

(** *** The [try] statement *)

(** What a run leaves behind, apart from the environment variables: how it
    ends, the files, the number of clock readings and the events logged. *)
Record Run : Type := mk_Run {
  run_result : result unit;
  run_files : gmap string string;
  run_now : nat;
  run_events : list event
}.

(** The world a run that started in [w] ends in. *)
Definition world_after (w : World) (r : Run) : World :=
  mk_World (environ w) (run_files r) (run_now r) (log w ++ run_events r)%list.

(** The prints after the crew has returned, after the report is saved and
    of the [except] clause. *)
Definition completed_prints : list event :=
  [ EvPrint "";
    EvPrint (mul "=" 80);
    EvPrint "✅ Marketing Strategy Development Completed Successfully!";
    EvPrint (mul "=" 80);
    EvPrint "" ].

Definition saved_prints (output_filename : Path) : list event :=
  [ EvPrint ("✅ Marketing strategy saved to: " ++ path_str output_filename);
    EvPrint "";
    EvPrint "📋 Strategy includes:";
    EvPrint "   • Market research and competitive analysis";
    EvPrint "   • Content strategy and messaging framework";
    EvPrint "   • Channel strategy and recommendations";
    EvPrint "   • Detailed campaign plan with timeline";
    EvPrint "   • Budget allocation and ROI projections";
    EvPrint "" ].

Definition error_report (e : exn) : list event :=
  [ EvPrint (nl ++ "❌ Error during crew execution: " ++ exn_str e);
    EvPrint (nl ++ "🔍 Troubleshooting:");
    EvPrint "   1. Verify OPENAI_API_KEY is set in parent directory .env file";
    EvPrint "   2. Check API key is valid and has sufficient credits";
    EvPrint "   3. Verify internet connection";
    EvPrint "";
    EvTraceback e ].

(** The path of the report when the clock has been read [n] times. *)
Definition output_path (E : Env) (kw : Kwargs) (n : nat) : Path :=
  path_div (script_dir E) (report_name (product_name kw) (clock E n)).

(** Saving the result of the crew: from the prints of completion to the
    prints after the file is closed. *)
Definition save_trace (E : Env) (kw : Kwargs) (fs : gmap string string)
    (n : nat) (result : string) : Run :=
  let path := path_str (output_path E kw n) in
  match os_open E path with
  | Some e =>
      mk_Run (Raised e) fs (S n)
             (completed_prints ++ [EvNow (clock E n); EvOpen path (Some e)])
  | None =>
      match report_trace E path (S n) kw result with
      | (evs, c, n', Some e) =>
          mk_Run (Raised e) (<[path := c]> fs) n'
                 (completed_prints ++ [EvNow (clock E n); EvOpen path None]
                  ++ evs ++ [EvClose path])
      | (evs, c, n', None) =>
          mk_Run (Returned tt) (<[path := c]> fs) n'
                 (completed_prints ++ [EvNow (clock E n); EvOpen path None]
                  ++ evs ++ [EvClose path] ++ saved_prints (output_path E kw n))
      end
  end%list.

(** The body of the [try] statement. *)
Definition crew_trace (E : Env) (kw : Kwargs) (fs : gmap string string)
    (n : nat) : Run :=
  match kickoff_trace E (crew_of kw) with
  | (evs, Raised e) => mk_Run (Raised e) fs n evs
  | (evs, Returned result) =>
      let r := save_trace E kw fs n result in
      mk_Run (run_result r) (run_files r) (run_now r) (evs ++ run_events r)%list
  end.

(** The [try] statement with its [except Exception] clause. *)
Definition guarded (r : Run) : Run :=
  match run_result r with
  | Raised e =>
      if is_Exception e
      then mk_Run (Returned tt) (run_files r) (run_now r)
                  (run_events r ++ error_report e)%list
      else r
  | Returned _ => r
  end.

(** The whole run of [main]. *)
Definition main_trace (E : Env) (kw : Kwargs) (fs : gmap string string)
    (n : nat) : Run :=
  guarded (crew_trace E kw fs n).

(** ** Observations on the log *)

(** The crews [kickoff] was called on, the tasks executed with the context
    handed to each and what came of it, and the objects created. *)
Definition kickoffs : list event -> list Crew :=
  omap (fun e => match e with EvKickoff c => Some c | _ => None end).

Definition executions : list event -> list (Task * string * result string) :=
  omap (fun e => match e with EvExecute t c r => Some (t, c, r) | _ => None end).

Definition executed_tasks (evs : list event) : list Task :=
  List.map (fun x => fst (fst x)) (executions evs).

(** The outputs of the executions that returned. *)
Definition outputs (evs : list event) : list string :=
  omap (fun x => match snd x with Returned out => Some out | Raised _ => None end)
       (executions evs).

Definition created_agents : list event -> list Agent :=
  omap (fun e => match e with EvAgent a => Some a | _ => None end).

Definition created_tasks : list event -> list Task :=
  omap (fun e => match e with EvTask t => Some t | _ => None end).

Definition created_crews : list event -> list Crew :=
  omap (fun e => match e with EvCrew c => Some c | _ => None end).

(** What [kickoff] returned, when it returned. *)
Definition kickoff_results : list event -> list string :=
  omap (fun e => match e with
                 | EvKickoffDone (Returned s) => Some s
                 | _ => None
                 end).

(** The exceptions raised during crew execution: by [kickoff], by [open]
    and by a write to the report. *)
Definition failure_of (e : event) : option exn :=
  match e with
  | EvKickoffDone (Raised x) => Some x
  | EvOpen _ (Some x) => Some x
  | EvWrite _ _ (Some x) => Some x
  | _ => None
  end.

Definition failures : list event -> list exn := omap failure_of.

(** The paths of the files [open] created, and of those it refused. *)
Definition opened : list event -> list string :=
  omap (fun e => match e with EvOpen p None => Some p | _ => None end).

Definition refused : list event -> list string :=
  omap (fun e => match e with EvOpen p (Some _) => Some p | _ => None end).

(** The events of the file: opening, writing, closing. *)
Definition touches_file (e : event) : bool :=
  match e with
  | EvOpen _ _ | EvWrite _ _ _ | EvClose _ => true
  | _ => false
  end.

(** The clock readings, in order. *)
Definition clock_readings : list event -> list datetime :=
  omap (fun e => match e with EvNow t => Some t | _ => None end).

(** The exceptions whose traceback was printed. *)
Definition tracebacks : list event -> list exn :=
  omap (fun e => match e with EvTraceback x => Some x | _ => None end).

(** Each execution is handed the output of the one before it, the first one
    [context]; nothing is executed after an execution that raised. *)
Fixpoint handoff (context : string)
    (xs : list (Task * string * result string)) : bool :=
  match xs with
  | [] => true
  | (_, c, r) :: rest =>
      String.eqb c context
      && match r with
         | Returned out => handoff out rest
         | Raised _ => match rest with [] => true | _ => false end
         end
  end.

(** *** The events of the crew *)

Definition is_execute (e : event) : bool :=
  match e with EvExecute _ _ _ => true | _ => false end.

(** *** The events of the report *)

Definition is_write (e : event) : bool :=
  match e with EvWrite _ _ _ => true | _ => false end.

Definition is_write_or_now (e : event) : bool :=
  match e with EvWrite _ _ _ | EvNow _ => true | _ => false end.

(** *** The events of a whole run *)

(** The text of the report: the header with the time of generation, the
    result of the crew, the closing rule. *)
Definition report_header (kw : Kwargs) (generated : datetime) : string :=
  String.concat ""
    (header_lines (product_name kw) (product_category kw) (target_audience kw)
                  (campaign_timeline kw) (total_budget kw))
  ++ "Generated: " ++ strftime "%Y-%m-%d %H:%M:%S" generated ++ nl ++ nl
  ++ mul "=" 80 ++ nl
  ++ "COMPREHENSIVE MARKETING STRATEGY" ++ nl
  ++ mul "=" 80 ++ nl ++ nl.

Definition report_footer : string := nl ++ mul "=" 80 ++ nl.

Definition report_text (kw : Kwargs) (generated : datetime) (result : string)
  : string :=
  report_header kw generated ++ result ++ report_footer.

(** How the [try] statement dealt with the exception [e]: caught and
    reported when [e] is an [Exception], left to propagate otherwise. *)
Definition handled (e : exn) (r : Run) : Prop :=
  if is_Exception e
  then run_result r = Returned tt
       /\ tracebacks (run_events r) = [e]
       /\ exists before, run_events r = (before ++ error_report e)%list
  else run_result r = Raised e /\ tracebacks (run_events r) = [].

(** The four ways a run that reached the [try] statement goes: [kickoff]
    raises; [open] raises; a write raises; nothing raises. *)
Inductive course (E : Env) (kw : Kwargs) (fs : gmap string string) (n : nat)
  : Run -> Prop :=
| crew_failed (r : Run) (e : exn) :
    snd (exec_trace E (five_tasks kw) "") = Raised e ->
    failures (run_events r) = [e] ->
    kickoff_results (run_events r) = [] ->
    opened (run_events r) = [] ->
    refused (run_events r) = [] ->
    existsb touches_file (run_events r) = false ->
    clock_readings (run_events r) = [] ->
    run_files r = fs ->
    handled e r ->
    course E kw fs n r
| open_failed (r : Run) (outs : list string) (e : exn) :
    snd (exec_trace E (five_tasks kw) "") = Returned outs ->
    os_open E (path_str (output_path E kw n)) = Some e ->
    failures (run_events r) = [e] ->
    kickoff_results (run_events r) = [String.concat "" outs] ->
    opened (run_events r) = [] ->
    refused (run_events r) = [path_str (output_path E kw n)] ->
    head (clock_readings (run_events r)) = Some (clock E n) ->
    run_files r = fs ->
    handled e r ->
    course E kw fs n r
| write_failed (r : Run) (outs : list string) (e : exn) (c : string) :
    snd (exec_trace E (five_tasks kw) "") = Returned outs ->
    os_open E (path_str (output_path E kw n)) = None ->
    failures (run_events r) = [e] ->
    kickoff_results (run_events r) = [String.concat "" outs] ->
    opened (run_events r) = [path_str (output_path E kw n)] ->
    refused (run_events r) = [] ->
    head (clock_readings (run_events r)) = Some (clock E n) ->
    run_files r = <[path_str (output_path E kw n) := c]> fs ->
    handled e r ->
    course E kw fs n r
| saved (r : Run) (outs : list string) :
    snd (exec_trace E (five_tasks kw) "") = Returned outs ->
    os_open E (path_str (output_path E kw n)) = None ->
    failures (run_events r) = [] ->
    kickoff_results (run_events r) = [String.concat "" outs] ->
    opened (run_events r) = [path_str (output_path E kw n)] ->
    refused (run_events r) = [] ->
    clock_readings (run_events r) = [clock E n; clock E (S n)] ->
    tracebacks (run_events r) = [] ->
    run_files r
    = <[path_str (output_path E kw n)
        := report_text kw (clock E (S n)) (String.concat "" outs)]> fs ->
    run_result r = Returned tt ->
    course E kw fs n r.

(** ** Sample environments *)

(** A configuration that validates, a clock that ticks one second per
    reading from 2025-01-15 10:30:00, agents that answer with their role
    and the length of what they were handed, and a file system that accepts
    everything. *)
Definition sample_clock (n : nat) : datetime :=
  mk_datetime 2025 1 15 10 30 n.

Definition sample_answer (t : Task) (context : string) : result string :=
  Returned ("[" ++ role (agent t) ++ " after "
            ++ digits (N.of_nat (String.length context)) ++ "]").

Definition sample_float (s : string) : option pyfloat :=
  option_map (fun u => of_N (N.of_uint u)) (NilZero.uint_of_string s).

Definition sample_env : Env :=
  {| validate_config_result := true;
     Config_API_KEY := "gsk-sample";
     Config_API_BASE := "https://api.groq.com/openai/v1";
     Config_USE_GROQ := true;
     Config_OPENAI_MODEL := "llama-3.3-70b-versatile";
     script_dir := ["/"; "home"; "lab"; "crewai"];
     clock := sample_clock;
     execute_task := sample_answer;
     os_open := fun _ => None;
     os_write := fun _ _ _ => None;
     float_of_str := sample_float |}.

(** The same with another configuration verdict, other agents or another
    answer of [open]. *)
Definition with_validation (ok : bool) (E : Env) : Env :=
  {| validate_config_result := ok;
     Config_API_KEY := Config_API_KEY E;
     Config_API_BASE := Config_API_BASE E;
     Config_USE_GROQ := Config_USE_GROQ E;
     Config_OPENAI_MODEL := Config_OPENAI_MODEL E;
     script_dir := script_dir E;
     clock := clock E;
     execute_task := execute_task E;
     os_open := os_open E;
     os_write := os_write E;
     float_of_str := float_of_str E |}.

Definition with_agents (answer : Task -> string -> result string) (E : Env)
  : Env :=
  {| validate_config_result := validate_config_result E;
     Config_API_KEY := Config_API_KEY E;
     Config_API_BASE := Config_API_BASE E;
     Config_USE_GROQ := Config_USE_GROQ E;
     Config_OPENAI_MODEL := Config_OPENAI_MODEL E;
     script_dir := script_dir E;
     clock := clock E;
     execute_task := answer;
     os_open := os_open E;
     os_write := os_write E;
     float_of_str := float_of_str E |}.

Definition with_open (answer : string -> option exn) (E : Env) : Env :=
  {| validate_config_result := validate_config_result E;
     Config_API_KEY := Config_API_KEY E;
     Config_API_BASE := Config_API_BASE E;
     Config_USE_GROQ := Config_USE_GROQ E;
     Config_OPENAI_MODEL := Config_OPENAI_MODEL E;
     script_dir := script_dir E;
     clock := clock E;
     execute_task := execute_task E;
     os_open := answer;
     os_write := os_write E;
     float_of_str := float_of_str E |}.

(** The configuration does not validate. *)
Definition invalid_env : Env := with_validation false sample_env.

(** The language model fails when the third task is attempted. *)
Definition failing_answer (e : exn) (t : Task) (context : string)
  : result string :=
  if String.eqb (role (agent t)) "Marketing Channel Specialist" then Raised e
  else sample_answer t context.

Definition failing_env : Env :=
  with_agents
    (failing_answer (PyException "RuntimeError" "rate limit exceeded"))
    sample_env.


(** The report cannot be created. *)
Definition refusing_env : Env :=
  with_open
    (fun path => Some (PyException "PermissionError"
                         ("[Errno 13] Permission denied: '" ++ path ++ "'")))
    sample_env.

(** The world before the script starts: no variable, no file, nothing
    logged. *)
Definition empty_world : World := mk_World ∅ ∅ 0 [].

(** ** The crew *)

(** An execution, as the event it is logged as. *)
Definition exec_event (x : Task * string * result string) : event :=
  EvExecute (fst (fst x)) (snd (fst x)) (snd x).

(** The events of the crew: the call of [kickoff], the executions of the
    tasks and the end of [kickoff]. *)
Definition is_crew_event (e : event) : bool :=
  match e with
  | EvKickoff _ | EvExecute _ _ _ | EvKickoffDone _ => true
  | _ => false
  end.

(** *** What follows a failure *)



(** *** Strings of the report and of its name *)


(** ** The run as a whole *)

(** The events a run can log once it has entered the [try] statement. *)
Definition in_try (e : event) : bool :=
  match e with
  | EvPrint _ | EvKickoff _ | EvExecute _ _ _ | EvKickoffDone _ | EvNow _
  | EvOpen _ _ | EvWrite _ _ _ | EvClose _ | EvTraceback _ => true
  | _ => false
  end.

(** The assignments to [os.environ], in order. *)
Definition assignments : list event -> list (string * string) :=
  omap (fun e => match e with EvSetEnv k v => Some (k, v) | _ => None end).

(** ** The protocol of the report file *)

(** What the script may do to files: nothing is open at first; [open]
    opens a file or raises; while a file is open the script only writes to
    it and reads the clock; after a write that raised, and at the end of
    the writes, the file is closed. *)
Inductive file_state : Type :=
| Closed
| Open (path : string)
| Failed (path : string).

Definition file_step (st : file_state) (e : event) : option file_state :=
  match st, e with
  | Closed, EvOpen p None => Some (Open p)
  | Closed, EvOpen p (Some _) => Some Closed
  | Closed, (EvWrite _ _ _ | EvClose _) => None
  | Closed, _ => Some Closed
  | Open q, EvWrite p _ None => if String.eqb p q then Some (Open q) else None
  | Open q, EvWrite p _ (Some _) =>
      if String.eqb p q then Some (Failed q) else None
  | Open q, EvNow _ => Some (Open q)
  | Open q, EvClose p => if String.eqb p q then Some Closed else None
  | Open _, _ => None
  | Failed q, EvClose p => if String.eqb p q then Some Closed else None
  | Failed _, _ => None
  end.

(** The state after a list of events, when every step is allowed. *)
Fixpoint file_run (st : file_state) (evs : list event) : option file_state :=
  match evs with
  | [] => Some st
  | e :: rest =>
      match file_step st e with
      | Some st' => file_run st' rest
      | None => None
      end
  end.

(** ** The name of the report *)

(** An ASCII capital letter. *)
Definition is_upper (c : ascii) : bool :=
  let n := nat_of_ascii c in (65 <=? n)%nat && (n <=? 90)%nat.

(** A [datetime] with a year of four digits, as the clock gives them. *)
Definition valid_datetime (t : datetime) : bool :=
  (1000 <=? year t)%nat && (year t <? 100 * 100)%nat
  && (1 <=? month t)%nat && (month t <=? 12)%nat
  && (1 <=? day t)%nat && (day t <=? 31)%nat
  && (hour t <? 24)%nat && (minute t <? 60)%nat && (second t <? 60)%nat.

(** The character the name gets for a character of the product name. *)
Definition name_char (c : ascii) : ascii :=
  lower_char (if Ascii.eqb c " " then "_"%char else c).

(** A character of a name: not a capital letter, not a space. *)
Definition plain_char (c : ascii) : bool :=
  negb (is_upper c) && negb (Ascii.eqb c " ").

(** ** What the run announces *)

(** The line that announces the report as saved. *)
Definition announces_saved (e : event) : bool :=
  match e with
  | EvPrint line => startswith "✅ Marketing strategy saved to: " line
  | _ => false
  end.

(** ** The order of a run *)

(** The phase of the run an event belongs to; prints belong to none. *)
Definition phase (e : event) : option nat :=
  match e with
  | EvPrint _ => None
  | EvValidateConfig _ => Some 0
  | EvSetEnv _ _ => Some 1
  | EvPrintSummary => Some 2
  | EvAgent _ => Some 3
  | EvTask _ => Some 4
  | EvCrew _ => Some 5
  | EvKickoff _ => Some 6
  | EvExecute _ _ _ => Some 7
  | EvKickoffDone _ => Some 8
  | EvNow _ | EvOpen _ _ | EvWrite _ _ _ | EvClose _ => Some 9
  | EvTraceback _ => Some 10
  end%nat.

(** A list of numbers that never goes down. *)
Fixpoint ascending (l : list nat) : bool :=
  match l with
  | a :: ((b :: _) as rest) => (a <=? b)%nat && ascending rest
  | _ => true
  end.

(** * Properties of the script *)

(** ** Strings *)

Lemma append_cons (c : ascii) (a b : string) :
  String c a ++ b = String c (a ++ b).
Proof. reflexivity. Qed.

Lemma append_empty_l (a : string) : "" ++ a = a.
Proof. reflexivity. Qed.

Lemma append_assoc_s (a b c : string) : (a ++ b) ++ c = a ++ b ++ c.
Proof.
  induction a as [|x a IH]; [reflexivity|].
  now rewrite !append_cons, IH.
Qed.

Lemma append_empty_r (a : string) : a ++ "" = a.
Proof.
  induction a as [|x a IH]; [reflexivity|].
  now rewrite append_cons, IH.
Qed.

Lemma contains_refl (s : string) : contains s s.
Proof. exists "", "". now rewrite append_empty_l, append_empty_r. Qed.

Lemma contains_here (sub post : string) : contains sub (sub ++ post).
Proof. exists "", post. reflexivity. Qed.

Lemma contains_skip (pre s sub : string) :
  contains sub s -> contains sub (pre ++ s).
Proof.
  intros (a & b & ->). exists (pre ++ a), b. now rewrite append_assoc_s.
Qed.

Lemma contains_app_l (s post sub : string) :
  contains sub s -> contains sub (s ++ post).
Proof.
  intros (a & b & ->). exists a, (b ++ post).
  now rewrite !append_assoc_s.
Qed.

Lemma contains_trans (a b c : string) :
  contains a b -> contains b c -> contains a c.
Proof.
  intros (p & q & ->) (p' & q' & ->).
  exists (p' ++ p), (q ++ q'). now rewrite !append_assoc_s.
Qed.

(** Splitting a conjunction, and nothing else. *)
Ltac splits := repeat match goal with |- _ /\ _ => split end.

(** A substring standing after some of the pieces of a concatenation. *)
Ltac find_sub :=
  solve [ repeat first
            [ apply contains_refl
            | apply contains_here
            | apply contains_skip ] ].

Lemma has_char_app (c : ascii) (a b : string) :
  has_char c (a ++ b) = has_char c a || has_char c b.
Proof.
  induction a as [|x a IH]; [reflexivity|].
  rewrite append_cons. simpl. rewrite IH. now rewrite orb_assoc.
Qed.


(** ** The decimal numeral and its groups of thousands *)

Lemma all_chars_list (p : ascii -> bool) (s : string) :
  all_chars p s = forallb p (list_ascii_of_string s).
Proof. induction s as [|c s IH]; simpl; [reflexivity | now rewrite IH]. Qed.

Lemma all_chars_of_list (p : ascii -> bool) (l : list ascii) :
  all_chars p (string_of_list_ascii l) = forallb p l.
Proof. induction l as [|c l IH]; simpl; [reflexivity | now rewrite IH]. Qed.

Lemma all_chars_app (p : ascii -> bool) (a b : string) :
  all_chars p (a ++ b) = all_chars p a && all_chars p b.
Proof.
  induction a as [|c a IH]; [reflexivity|].
  rewrite append_cons. simpl. now rewrite IH, andb_assoc.
Qed.

Lemma all_chars_no_char (p : ascii -> bool) (c : ascii) (s : string) :
  p c = false -> all_chars p s = true -> has_char c s = false.
Proof.
  intros Hc. induction s as [|x s IH]; simpl; [reflexivity|].
  intros [Hx Hs]%andb_prop. rewrite (IH Hs), orb_false_r.
  destruct (Ascii.eqb_spec x c); [congruence | reflexivity].
Qed.

Lemma string_of_uint_digits (d : Decimal.uint) :
  all_chars is_digit (NilEmpty.string_of_uint d) = true.
Proof. induction d; simpl; auto. Qed.

Lemma string_of_uint_nonempty (d : Decimal.uint) :
  d <> Decimal.Nil -> NilEmpty.string_of_uint d <> "".
Proof. destruct d; simpl; congruence. Qed.

Lemma digits_are_digits (n : N) : all_chars is_digit (digits n) = true.
Proof.
  unfold digits, NilZero.string_of_uint.
  destruct (N.to_uint n); try apply string_of_uint_digits; reflexivity.
Qed.

Lemma digits_nonempty (n : N) : digits n <> "".
Proof.
  unfold digits, NilZero.string_of_uint.
  destruct (N.to_uint n) eqn:Hn; try discriminate.
Qed.

(** The groups of [chunks_rev]: all but the last have three characters, the
    last has between one and three (none only for no digits at all), and
    together they are the digits. *)
Lemma chunks_rev_spec (n : nat) :
  forall ds : list ascii,
    (length ds <= n)%nat ->
    exists init lastc,
      chunks_rev ds = (init ++ [lastc])%list
      /\ Forall (fun g => length g = 3%nat) init
      /\ (length lastc <= 3)%nat
      /\ (ds <> [] -> (1 <= length lastc)%nat)
      /\ List.concat (chunks_rev ds) = ds.
Proof.
  induction n as [|n IH]; intros ds Hlen.
  - destruct ds; [|simpl in Hlen; lia].
    exists [], []. simpl. splits; auto; try lia; congruence.
  - destruct ds as [|a [|b [|c [|d rest]]]].
    + exists [], []. simpl. splits; auto; try lia; congruence.
    + exists [], [a]. simpl. splits; auto; lia.
    + exists [], [a; b]. simpl. splits; auto; lia.
    + exists [], [a; b; c]. simpl. splits; auto; lia.
    + destruct (IH (d :: rest)) as (init & lastc & Hc & Hi & Hl & Hne & Hcat).
      { simpl in *. lia. }
      exists ([a; b; c] :: init), lastc.
      change (chunks_rev (a :: b :: c :: d :: rest))
        with ([a; b; c] :: chunks_rev (d :: rest)).
      rewrite Hc. split; [reflexivity|]. split; [now constructor|].
      split; [exact Hl|]. split.
      * intros _. apply Hne. discriminate.
      * rewrite Hc in Hcat.
        now rewrite concat_cons, Hcat.
Qed.

Lemma concat_strings_of_lists (gs : list (list ascii)) :
  String.concat "" (List.map string_of_list_ascii gs)
  = string_of_list_ascii (List.concat gs).
Proof.
  induction gs as [|g gs IH]; [reflexivity|].
  assert (Happ : forall a b, string_of_list_ascii (a ++ b)%list
                             = string_of_list_ascii a ++ string_of_list_ascii b).
  { intros a b. induction a as [|x a IHa]; [reflexivity|].
    simpl. now rewrite append_cons, IHa. }
  destruct gs as [|g' gs].
  - simpl. now rewrite app_nil_r.
  - change (String.concat "" (List.map string_of_list_ascii (g :: g' :: gs)))
      with (string_of_list_ascii g ++ ""
            ++ String.concat "" (List.map string_of_list_ascii (g' :: gs))).
    rewrite IH. simpl (List.concat (g :: _)). now rewrite Happ.
Qed.

Lemma concat_rev_rev {A} (gs : list (list A)) :
  List.concat (rev (List.map (@rev A) gs)) = rev (List.concat gs).
Proof.
  induction gs as [|g gs IH]; [reflexivity|].
  simpl. rewrite concat_app, IH. simpl. now rewrite app_nil_r, rev_app_distr.
Qed.

Lemma thousands_unfold (s : string) :
  thousands s
  = List.map string_of_list_ascii
      (rev (List.map (@rev ascii) (chunks_rev (rev (list_ascii_of_string s))))).
Proof.
  unfold thousands. now rewrite <- map_rev, List.map_map.
Qed.

(** Taking the commas away gives the numeral back. *)
Lemma thousands_concat (s : string) : String.concat "" (thousands s) = s.
Proof.
  rewrite thousands_unfold, concat_strings_of_lists, concat_rev_rev.
  destruct (chunks_rev_spec _ (rev (list_ascii_of_string s)) (le_n _))
    as (_ & _ & _ & _ & _ & _ & ->).
  now rewrite rev_involutive, string_of_list_ascii_of_string.
Qed.

Lemma length_string_of_list (l : list ascii) :
  String.length (string_of_list_ascii l) = length l.
Proof. induction l as [|c l IH]; simpl; [reflexivity | now rewrite IH]. Qed.

(** The first group has one to three digits, every other group three. *)
Lemma thousands_groups (s : string) :
  s <> "" ->
  exists g gs,
    thousands s = g :: gs
    /\ (1 <= String.length g <= 3)%nat
    /\ Forall (fun x => String.length x = 3%nat) gs.
Proof.
  intros Hs.
  destruct (chunks_rev_spec _ (rev (list_ascii_of_string s)) (le_n _))
    as (init & lastc & Hc & Hi & Hl & Hne & _).
  rewrite thousands_unfold, Hc, map_app, rev_app_distr. simpl.
  eexists _, _. split; [reflexivity|]. split.
  - rewrite length_string_of_list, length_rev. split; [|exact Hl].
    apply Hne. intros Hnil.
    apply (f_equal (@rev ascii)) in Hnil. rewrite rev_involutive in Hnil.
    simpl in Hnil. apply Hs.
    rewrite <- (string_of_list_ascii_of_string s), Hnil. reflexivity.
  - apply Forall_map, Forall_rev, Forall_map.
    eapply Forall_impl; [|exact Hi].
    intros g Hg. simpl. now rewrite length_string_of_list, length_rev.
Qed.

Lemma thousands_chars (p : ascii -> bool) (s : string) :
  all_chars p s = true ->
  Forall (fun g => all_chars p g = true) (thousands s).
Proof.
  intros Hp. rewrite thousands_unfold.
  destruct (chunks_rev_spec _ (rev (list_ascii_of_string s)) (le_n _))
    as (_ & _ & _ & _ & _ & _ & Hcat).
  assert (Hall : Forall (fun g => forallb p g = true)
                        (chunks_rev (rev (list_ascii_of_string s)))).
  { rewrite all_chars_list in Hp.
    assert (Hr : forallb p (rev (list_ascii_of_string s)) = true).
    { rewrite forallb_forall in *. intros x Hx. apply Hp.
      now apply in_rev. }
    rewrite <- Hcat in Hr.
    revert Hr. generalize (chunks_rev (rev (list_ascii_of_string s))).
    intros gs. induction gs as [|g gs IH]; simpl; [constructor|].
    rewrite forallb_app. intros [Hg Hgs]%andb_prop.
    constructor; auto. }
  apply Forall_map, Forall_rev, Forall_map.
  eapply Forall_impl; [|exact Hall].
  intros g Hg. simpl. rewrite all_chars_of_list.
  rewrite forallb_forall in *. intros x Hx. apply Hg. now apply in_rev.
Qed.

Lemma join_chars (p : ascii -> bool) (sep : string) (gs : list string) :
  all_chars p sep = true ->
  Forall (fun g => all_chars p g = true) gs ->
  all_chars p (join sep gs) = true.
Proof.
  intros Hsep. induction 1 as [|g gs Hg Hgs IH]; [reflexivity|].
  destruct gs as [|g' gs]; [exact Hg|].
  change (join sep (g :: g' :: gs)) with (g ++ sep ++ join sep (g' :: gs)).
  now rewrite !all_chars_app, Hg, Hsep, IH.
Qed.

Lemma all_chars_weaken (p q : ascii -> bool) (s : string) :
  (forall c, p c = true -> q c = true) ->
  all_chars p s = true -> all_chars q s = true.
Proof.
  intros Hpq. induction s as [|c s IH]; simpl; [reflexivity|].
  intros [Hc Hs]%andb_prop. now rewrite (Hpq _ Hc), IH.
Qed.

(** A grouped numeral is made of digits and commas. *)
Lemma group_commas_chars (n : N) :
  all_chars is_digit_or_comma (group_commas (digits n)) = true.
Proof.
  unfold group_commas. apply join_chars; [reflexivity|].
  eapply Forall_impl; [|apply thousands_chars, digits_are_digits].
  intros g. simpl. apply all_chars_weaken.
  intros c Hc. unfold is_digit_or_comma. now rewrite Hc.
Qed.

(** The rounding to zero decimal places is a nearest integer: for a
    negative exponent [-k], the rounded [n] is within a half of
    [m / 2^k]. *)
Lemma round_half_even_nearest (m : N) (p : positive) :
  let d := (2 ^ Npos p)%N in
  let n := round_half_even m (Zneg p) in
  (2 * (n * d) <= 2 * m + d /\ 2 * m <= 2 * (n * d) + d)%N.
Proof.
  intros d n. subst n. unfold round_half_even.
  change (2 ^ N.pos p)%N with d.
  assert (Hd : (d <> 0)%N) by (apply N.pow_nonzero; discriminate).
  pose proof (N.div_mod m d Hd) as Hdm.
  pose proof (N.mod_lt m d Hd) as Hlt.
  generalize dependent (m / d)%N. generalize dependent (m mod d)%N.
  clearbody d. intros r Hlt q Hdm.
  destruct (N.compare_spec (2 * r) d) as [Heq | Hl | Hg];
    [destruct (N.even q)| |]; nia.
Qed.

(** *** The number a numeral stands for *)

Lemma value_from_acc (d : Decimal.uint) :
  forall acc : positive,
    value_from (Npos acc) (NilEmpty.string_of_uint d)
    = Npos (Pos.of_uint_acc d acc).
Proof.
  induction d; intros acc; cbn [NilEmpty.string_of_uint value_from Pos.of_uint_acc];
    [reflexivity|..]; rewrite <- IHd; f_equal; vm_compute (N.of_nat _ - 48)%N; lia.
Qed.

Lemma value_from_zero (d : Decimal.uint) :
  value_from 0 (NilEmpty.string_of_uint d) = Pos.of_uint d.
Proof.
  induction d; cbn [NilEmpty.string_of_uint value_from Pos.of_uint];
    [reflexivity | exact IHd | ..]; apply (value_from_acc d).
Qed.

(** The numeral of [n] stands for [n]. *)
Lemma decimal_value_digits (n : N) : decimal_value (digits n) = n.
Proof.
  unfold decimal_value, digits. rewrite <- (DecimalN.Unsigned.of_to n) at 2.
  unfold N.of_uint, NilZero.string_of_uint.
  destruct (N.to_uint n); try apply value_from_zero. reflexivity.
Qed.

Lemma nzhead_no_zero (d l : Decimal.uint) : Decimal.nzhead d <> Decimal.D0 l.
Proof. induction d; simpl; try discriminate. exact IHd. Qed.

(** The numeral of [n] has no leading zero: it is ["0"] or starts with
    another digit. *)
Lemma digits_no_leading_zero (n : N) :
  digits n = "0" \/ startswith "0" (digits n) = false.
Proof.
  unfold digits. pose proof (DecimalN.Unsigned.to_of (N.to_uint n)) as Hn.
  rewrite DecimalN.Unsigned.of_to in Hn.
  destruct (N.to_uint n) as [|d|d|d|d|d|d|d|d|d|d];
    try (right; reflexivity); [left; reflexivity|].
  left. unfold Decimal.unorm in Hn.
  destruct (Decimal.nzhead (Decimal.D0 d)) eqn:Hh; try discriminate Hn.
  - injection Hn as Hd. now subst d.
  - exfalso. exact (nzhead_no_zero _ _ Hh).
Qed.

(** At a tie the rounding takes the even neighbour. *)
Lemma round_half_even_tie (m : N) (p : positive) :
  let d := (2 ^ Npos p)%N in
  let n := round_half_even m (Zneg p) in
  (2 * m = 2 * (n * d) + d \/ 2 * (n * d) = 2 * m + d)%N ->
  N.even n = true.
Proof.
  intros d n. subst n. unfold round_half_even.
  change (2 ^ N.pos p)%N with d.
  assert (Hd : (d <> 0)%N) by (apply N.pow_nonzero; discriminate).
  pose proof (N.div_mod m d Hd) as Hdm.
  pose proof (N.mod_lt m d Hd) as Hlt.
  generalize dependent (m / d)%N. generalize dependent (m mod d)%N.
  clearbody d. intros r Hlt q Hdm.
  destruct (N.compare_spec (2 * r) d) as [Heq | Hl | Hg].
  - destruct (N.even q) eqn:Hq; [auto|]. intros _.
    rewrite N.add_1_r, N.even_succ, <- N.negb_even, Hq. reflexivity.
  - intros [H|H]; exfalso; nia.
  - intros [H|H]; exfalso; nia.
Qed.

(** [sep.join] is the concatenation with a separator. *)
Lemma join_concat (sep : string) (parts : list string) :
  join sep parts = String.concat sep parts.
Proof.
  induction parts as [|p rest IH]; [reflexivity|].
  destruct rest as [|q rest]; [reflexivity|].
  change (join sep (p :: q :: rest)) with (p ++ sep ++ join sep (q :: rest)).
  now rewrite IH.
Qed.

(** ** Tools *)

Lemma pure_call_deterministic {A} (c : M A) :
  pure_call c ->
  forall w1 w2, fst (c w1) = fst (c w2) /\ snd (c w1) = w1 /\ snd (c w2) = w2.
Proof. intros [v Hv] w1 w2. now rewrite !Hv. Qed.

(** C5: each of the four tool functions is pure and deterministic.  Every
    call returns a string that depends on the arguments only, whatever the
    world it runs in, and changes nothing in that world: no event (no print,
    no file or network access through the environment), no environment
    variable, no file. *)
Theorem tools_pure_deterministic :
  forall (product_name product_category target_audience channels : string)
         (budget : pyfloat),
    pure_call (research_market_trends product_category target_audience)
    /\ pure_call (analyze_competitors product_name product_category)
    /\ pure_call (research_marketing_channels product_category target_audience)
    /\ pure_call (calculate_marketing_metrics budget channels)
    /\ (forall w1 w2,
          fst (research_market_trends product_category target_audience w1)
          = fst (research_market_trends product_category target_audience w2)
          /\ fst (analyze_competitors product_name product_category w1)
             = fst (analyze_competitors product_name product_category w2)
          /\ fst (research_marketing_channels product_category target_audience w1)
             = fst (research_marketing_channels product_category target_audience w2)
          /\ fst (calculate_marketing_metrics budget channels w1)
             = fst (calculate_marketing_metrics budget channels w2)).
Proof.
  intros. splits; try (eexists; intros; reflexivity).
  intros w1 w2. splits; reflexivity.
Qed.

Lemma format_comma_0f_no_point (x : pyfloat) :
  has_char "." (format_comma_0f x) = false.
Proof.
  destruct x as [neg m e | neg |]; unfold format_comma_0f.
  - rewrite has_char_app.
    rewrite (all_chars_no_char is_digit_or_comma "."
               (group_commas (digits (round_half_even m e))) eq_refl
               (group_commas_chars _)).
    now destruct neg.
  - now destruct neg.
  - reflexivity.
Qed.

(** C6: each tool formats its prompt from its arguments.  The returned
    string holds every string argument verbatim; the budget is rendered
    after a dollar sign with no decimal point.  A finite budget [m * 2^e]
    is rendered as the integer [n] nearest to it, the even one at a tie:
    a minus sign when the budget is negative, then groups of digits with
    commas between them, the first of one to three digits and every other
    of three, which read together are the decimal numeral of [n], without
    a leading zero. *)
Theorem tools_format_their_arguments :
  (forall (product_category target_audience : string) (w : World),
      exists s, research_market_trends product_category target_audience w
                = (Returned s, w)
                /\ contains product_category s /\ contains target_audience s)
  /\ (forall (product_name product_category : string) (w : World),
        exists s, analyze_competitors product_name product_category w
                  = (Returned s, w)
                  /\ contains product_name s /\ contains product_category s)
  /\ (forall (product_category target_audience : string) (w : World),
        exists s, research_marketing_channels product_category target_audience w
                  = (Returned s, w)
                  /\ contains product_category s /\ contains target_audience s)
  /\ (forall (budget : pyfloat) (channels : string) (w : World),
        exists s, calculate_marketing_metrics budget channels w
                  = (Returned s, w)
                  /\ contains channels s
                  /\ contains ("$" ++ format_comma_0f budget ++ " budget") s
                  /\ has_char "." (format_comma_0f budget) = false)
  /\ (forall (neg : bool) (m : N) (e : Z),
        exists (n : N) (g : string) (gs : list string),
          format_comma_0f (Finite neg m e)
          = (if neg then "-" else "") ++ String.concat "," (g :: gs)
          /\ (1 <= String.length g <= 3)%nat
          /\ Forall (fun x => String.length x = 3%nat) gs
          /\ all_chars is_digit (String.concat "" (g :: gs)) = true
          /\ (String.concat "" (g :: gs) = "0"
              \/ exists c rest, String.concat "" (g :: gs) = String c rest
                                /\ c <> "0"%char)
          /\ decimal_value (String.concat "" (g :: gs)) = n
          /\ match e with
             | Z0 => n = m
             | Zpos p => n = (m * 2 ^ Npos p)%N
             | Zneg p =>
                 (2 * (n * 2 ^ Npos p) <= 2 * m + 2 ^ Npos p
                  /\ 2 * m <= 2 * (n * 2 ^ Npos p) + 2 ^ Npos p
                  /\ ((2 * m = 2 * (n * 2 ^ Npos p) + 2 ^ Npos p
                       \/ 2 * (n * 2 ^ Npos p) = 2 * m + 2 ^ Npos p) ->
                      N.even n = true))%N
             end).
Proof.
  splits.
  - intros. eexists. split; [reflexivity|]. split; find_sub.
  - intros. eexists. split; [reflexivity|]. split; find_sub.
  - intros. eexists. split; [reflexivity|]. split; find_sub.
  - intros. eexists. split; [reflexivity|]. splits.
    + find_sub.
    + unfold contains.
      match goal with
      | |- exists pre post, ?L ++ ?x ++ _ ++ ?ch ++ ?R = _ =>
          let p := eval vm_compute in (substring 0 (String.length L - 1) L) in
          exists p, (" across " ++ ch ++ R);
          rewrite !append_assoc_s; reflexivity
      end.
    + apply format_comma_0f_no_point.
  - intros neg m e. exists (round_half_even m e).
    destruct (thousands_groups (digits (round_half_even m e))
                (digits_nonempty _)) as (g & gs & Hth & Hg & Hgs).
    exists g, gs.
    assert (Hcat : String.concat "" (g :: gs) = digits (round_half_even m e))
      by (rewrite <- Hth; apply thousands_concat).
    rewrite Hcat. splits.
    + unfold format_comma_0f, group_commas. now rewrite Hth, join_concat.
    + apply Hg.
    + apply Hg.
    + exact Hgs.
    + apply digits_are_digits.
    + destruct (digits_no_leading_zero (round_half_even m e)) as [H0|H0];
        [now left | right].
      destruct (digits (round_half_even m e)) as [|c rest] eqn:Hd;
        [now apply digits_nonempty in Hd|].
      exists c, rest. split; [reflexivity|].
      intros ->. discriminate H0.
    + apply decimal_value_digits.
    + destruct e; try reflexivity. split; [|split].
      * apply round_half_even_nearest.
      * apply round_half_even_nearest.
      * apply round_half_even_tie.
Qed.

(** ** Worlds and runs *)

Lemma drop_log (l evs : list event) : drop (length l) (l ++ evs)%list = evs.
Proof. apply drop_app_length. Qed.

Lemma extend_nil (w : World) : extend w [] = w.
Proof. destruct w. unfold extend. simpl. now rewrite app_nil_r. Qed.

Lemma extend_extend (w : World) (a b : list event) :
  extend (extend w a) b = extend w (a ++ b)%list.
Proof. unfold extend. simpl. now rewrite app_assoc. Qed.

Lemma emit_extend (e : event) (w : World) : emit e w = extend w [e].
Proof. reflexivity. Qed.

(** Unfolding the straight-line part of a run: the computations that only
    log, and the projections of the world. *)
Ltac run_straight :=
  cbv beta iota zeta delta
    [main_kwargs main script parse_args bind ret raise py_exit print setenv
     validate_config Config_print_summary print_exc
     create_market_research_agent create_content_strategist_agent
     create_channel_specialist_agent create_campaign_planner_agent
     create_budget_analyst_agent
     create_market_research_task create_content_strategy_task
     create_channel_strategy_task create_campaign_plan_task
     create_budget_allocation_task
     new_Agent new_Task new_Crew
     emit extend environ files now_calls log negb
     validate_config_result Config_API_KEY Config_API_BASE Config_USE_GROQ
     Config_OPENAI_MODEL
     product_name product_category product_description target_audience
     unique_value_proposition marketing_objectives campaign_timeline
     total_budget].

(** Gathering the logged events into one list after the initial log. *)
Ltac gather_log :=
  repeat first [ rewrite <- (app_assoc (A := event)) | progress cbn [app] ].

(** ** The command line *)

(** C10: command-line arguments override the defaults by position.  The
    first replaces the product name, the second the product category, the
    third is parsed by [float] into the budget, and every other parameter
    keeps its default; arguments past the third are ignored.  When [float]
    rejects the third argument, the [ValueError] is raised before [main] is
    entered: nothing is printed or done, nothing catches it, and the
    interpreter ends with status 1. *)
Theorem command_line_overrides :
  forall (E : Env) (argv : list string) (w : World),
    let kwargs budget :=
      mk_Kwargs (nth 1 argv (product_name default_kwargs))
                (nth 2 argv (product_category default_kwargs))
                (product_description default_kwargs)
                (target_audience default_kwargs)
                (unique_value_proposition default_kwargs)
                (marketing_objectives default_kwargs)
                (campaign_timeline default_kwargs)
                budget in
    match (if (3 <? length argv)%nat then float_of_str E (nth 3 argv "")
           else Some (total_budget default_kwargs)) with
    | Some budget => script E argv w = main_kwargs E (kwargs budget) w
    | None =>
        exists msg,
          script E argv w = (Raised (PyException "ValueError" msg), w)
          /\ is_Exception (PyException "ValueError" msg) = true
          /\ exit_status (fst (script E argv w)) = 1%Z
          /\ events_of (script E argv) w = []
    end.
Proof.
  intros E argv w kwargs. subst kwargs.
  destruct argv as [|a0 [|a1 [|a2 [|a3 rest]]]]; try reflexivity.
  cbn [length Nat.ltb Nat.leb nth].
  unfold script, parse_args, argv_at, py_float, events_of.
  cbn [length Nat.ltb Nat.leb nth].
  destruct (float_of_str E a3) as [budget|]; [reflexivity|].
  eexists. cbv [bind raise fst snd exit_status is_Exception].
  splits; try reflexivity.
  now rewrite drop_all.
Qed.

(** ** Configuration *)

Lemma main_invalid_run (E : Env) (kw : Kwargs) (w : World) :
  validate_config_result E = false ->
  exists evs,
    main_kwargs E kw w = (Raised (SystemExit 1), extend w evs)
    /\ existsb acts evs = false.
Proof.
  intros Hv. destruct E as [v k b g m sd cl ex oo ow fl].
  simpl in Hv. subst v. destruct kw as [pn pc pd ta uv mo ct tb].
  eexists. split.
  - run_straight. gather_log. reflexivity.
  - reflexivity.
Qed.

(** C8: when [validate_config()] returns false, [main] ends the process
    with exit code 1 before any agent, task or crew is created, before any
    environment variable is set and before any file is written. *)
Theorem invalid_config_exits_first :
  forall (E : Env) (kw : Kwargs) (w : World),
    validate_config_result E = false ->
    fst (main_kwargs E kw w) = Raised (SystemExit 1)
    /\ exit_status (fst (main_kwargs E kw w)) = 1%Z
    /\ existsb acts (events_of (main_kwargs E kw) w) = false
    /\ environ (snd (main_kwargs E kw w)) = environ w
    /\ files (snd (main_kwargs E kw w)) = files w.
Proof.
  intros E kw w Hv.
  destruct (main_invalid_run E kw w Hv) as (evs & Hrun & Hacts).
  unfold events_of. rewrite Hrun. simpl. rewrite drop_log.
  splits; auto.
Qed.

(** C8 on the sample environment whose configuration does not validate. *)
Lemma invalid_config_exits_first_witness :
  validate_config_result invalid_env = false
  /\ fst (main_kwargs invalid_env default_kwargs empty_world)
     = Raised (SystemExit 1)
  /\ exit_status (fst (main_kwargs invalid_env default_kwargs empty_world)) = 1%Z
  /\ existsb acts (events_of (main_kwargs invalid_env default_kwargs)
                             empty_world) = false
  /\ environ (snd (main_kwargs invalid_env default_kwargs empty_world))
     = environ empty_world
  /\ files (snd (main_kwargs invalid_env default_kwargs empty_world))
     = files empty_world.
Proof.
  split; [reflexivity|].
  apply (invalid_config_exits_first invalid_env default_kwargs empty_world).
  reflexivity.
Defined.

(** ** What a run of [main] logs *)

(** With a valid configuration [main] reaches its [try] statement, having
    built the crew and logged the steps of the set-up. *)
Lemma main_valid_run (E : Env) (kw : Kwargs) (w : World) :
  validate_config_result E = true ->
  exists evs,
    main_kwargs E kw w
    = try_except_Exception
        (execute_crew E (crew_of kw) (product_name kw) (product_category kw)
                      (target_audience kw) (campaign_timeline kw)
                      (total_budget kw))
        (report_error)
        (mk_World (setup_environ E (environ w)) (files w) (now_calls w)
                  (log w ++ evs)%list)
    /\ quiet evs = setup_steps E kw.
Proof.
  intros Hv. destruct E as [v k b g m sd cl ex oo ow fl].
  simpl in Hv. subst v. destruct kw as [pn pc pd ta uv mo ct tb].
  destruct g; eexists;
    (split; [run_straight; gather_log; reflexivity | reflexivity]).
Qed.

(** *** The crew *)

Lemma run_tasks_run (E : Env) (ts : list Task) :
  forall (context : string) (w : World),
    run_tasks E ts context w
    = (snd (exec_trace E ts context), extend w (fst (exec_trace E ts context))).
Proof.
  induction ts as [|t rest IH]; intros context w.
  - simpl. now rewrite extend_nil.
  - simpl. unfold bind, execute.
    destruct (execute_task E t context) as [out|e]; [|reflexivity].
    rewrite IH. destruct (exec_trace E rest out) as [evs [outs|e]];
      simpl; unfold ret; now rewrite emit_extend, extend_extend.
Qed.

Lemma kickoff_run (E : Env) (c : Crew) (w : World) :
  kickoff E c w
  = (snd (kickoff_trace E c), extend w (fst (kickoff_trace E c))).
Proof.
  unfold kickoff, kickoff_trace. rewrite run_tasks_run.
  destruct (exec_trace E (tasks c) "") as [evs [outs|e]]; simpl;
    now rewrite !emit_extend, !extend_extend.
Qed.

(** *** The report *)

Lemma written_id (w : World) (f content : string) :
  files w !! f = Some content -> written w f content [] = w.
Proof.
  intros Hf. destruct w as [env fs n l]. unfold written. simpl in *.
  now rewrite insert_id, app_nil_r.
Qed.

Lemma write_then_run (E : Env) (f : string) (k : M unit) (datas : list string) :
  forall (content : string) (w : World),
    files w !! f = Some content ->
    write_then E f datas k w
    = match write_trace E f content datas with
      | (evs, c, Some e) => (Raised e, written w f c evs)
      | (evs, c, None) => k (written w f c evs)
      end.
Proof.
  induction datas as [|d rest IH]; intros content w Hf.
  - simpl. now rewrite written_id.
  - simpl. unfold bind, f_write. rewrite Hf. simpl.
    destruct (os_write E f content d) as [e|].
    + unfold written, emit. now rewrite insert_id.
    + rewrite (IH (content ++ d)).
      2:{ simpl. apply lookup_insert_eq. }
      destruct (write_trace E f (content ++ d) rest) as [[evs c] [e|]];
        unfold written, emit; simpl;
        now rewrite insert_insert_eq, <- app_assoc.
Qed.

Lemma write_then_last (E : Env) (f d : string) (datas : list string) (w : World) :
  write_then E f datas (f_write E f d) w
  = write_then E f (datas ++ [d]) (ret tt) w.
Proof.
  revert w. induction datas as [|x rest IH]; intros w.
  - simpl. unfold bind, f_write, ret.
    now destruct (os_write E f (default "" (files w !! f)) d).
  - simpl. unfold bind. destruct (f_write E f x w) as [[[]|e] w']; auto.
Qed.

Lemma write_report_run (E : Env) (f : string) (kw : Kwargs) (result : string)
    (w : World) :
  files w !! f = Some "" ->
  write_report E f (product_name kw) (product_category kw) (target_audience kw)
               (campaign_timeline kw) (total_budget kw) result w
  = match report_trace E f (now_calls w) kw result with
    | (evs, c, n, r) =>
        (match r with Some e => Raised e | None => Returned tt end,
         mk_World (environ w) (<[f := c]> (files w)) n (log w ++ evs)%list)
    end.
Proof.
  intros Hf.
  change (write_report E f (product_name kw) (product_category kw)
            (target_audience kw) (campaign_timeline kw) (total_budget kw) result)
    with (write_then E f
            (header_lines (product_name kw) (product_category kw)
               (target_audience kw) (campaign_timeline kw) (total_budget kw))
            (generated <- datetime_now E ;;
             write_then E f (removelast (body_lines generated result))
               (f_write E f (last (body_lines generated result) "")))).
  rewrite (write_then_run E f _ _ "" w Hf). unfold report_trace.
  destruct (write_trace E f ""
              (header_lines (product_name kw) (product_category kw)
                 (target_audience kw) (campaign_timeline kw) (total_budget kw)))
    as [[evs1 c1] [e|]]; [reflexivity|].
  unfold bind at 1, datetime_now. rewrite write_then_last.
  change (removelast (body_lines ?g result) ++ [last (body_lines ?g result) ""])%list
    with (body_lines g result).
  rewrite (write_then_run E f _ _ c1).
  2:{ simpl. apply lookup_insert_eq. }
  unfold written, emit. cbn [now_calls environ files log].
  destruct (write_trace E f c1 (body_lines (clock E (now_calls w)) result))
    as [[evs2 c2] [e|]];
    unfold ret; rewrite insert_insert_eq, <- !app_assoc; reflexivity.
Qed.

(** *** The [try] statement *)

Lemma report_error_run (e : exn) (w : World) :
  report_error e w = (Returned tt, extend w (error_report e)).
Proof.
  unfold report_error, error_report.
  cbv beta iota zeta delta [bind print print_exc emit extend environ files
                            now_calls log].
  gather_log. reflexivity.
Qed.

Lemma with_open_run (E : Env) (kw : Kwargs) (result path : string) (w : World) :
  with_open_w E path
    (fun f => write_report E f (product_name kw) (product_category kw)
                (target_audience kw) (campaign_timeline kw) (total_budget kw)
                result) w
  = match os_open E path with
    | Some e => (Raised e, extend w [EvOpen path (Some e)])
    | None =>
        match report_trace E path (now_calls w) kw result with
        | (evs, c, n, r) =>
            (match r with Some e => Raised e | None => Returned tt end,
             mk_World (environ w) (<[path := c]> (files w)) n
                      (log w ++ EvOpen path None :: evs ++ [EvClose path])%list)
        end
    end.
Proof.
  unfold with_open_w. destruct (os_open E path) as [e|]; [reflexivity|].
  rewrite write_report_run by (simpl; apply lookup_insert_eq).
  unfold emit. cbn [environ files now_calls log].
  destruct (report_trace E path (now_calls w) kw result) as [[[evs c] n] r].
  cbn [environ files now_calls log].
  rewrite insert_insert_eq, <- !app_assoc. reflexivity.
Qed.

Lemma execute_crew_run (E : Env) (kw : Kwargs) (w : World) :
  execute_crew E (crew_of kw) (product_name kw) (product_category kw)
               (target_audience kw) (campaign_timeline kw) (total_budget kw) w
  = (run_result (crew_trace E kw (files w) (now_calls w)),
     world_after w (crew_trace E kw (files w) (now_calls w))).
Proof.
  unfold execute_crew, crew_trace.
  unfold bind at 1. rewrite kickoff_run.
  destruct (kickoff_trace E (crew_of kw)) as [kevs [result|e]];
    cbn [fst snd]; [|reflexivity].
  unfold save_trace, world_after, output_path.
  cbv beta iota zeta delta [bind print datetime_now emit extend environ files
                            now_calls log].
  rewrite with_open_run.
  cbn [environ files now_calls log].
  destruct (os_open E _) as [e|].
  - unfold extend, completed_prints.
    cbn [run_result run_files run_now run_events environ files now_calls log].
    gather_log. reflexivity.
  - match goal with
    | |- context [report_trace E ?p ?n kw result] =>
        destruct (report_trace E p n kw result) as [[[evs c] n'] [e|]]
    end;
      unfold extend, completed_prints, saved_prints, ret;
      cbn [run_result run_files run_now run_events environ files now_calls log];
      gather_log; reflexivity.
Qed.

Lemma try_except_run (E : Env) (kw : Kwargs) (w : World) :
  try_except_Exception
    (execute_crew E (crew_of kw) (product_name kw) (product_category kw)
                  (target_audience kw) (campaign_timeline kw) (total_budget kw))
    report_error w
  = (run_result (guarded (crew_trace E kw (files w) (now_calls w))),
     world_after w (guarded (crew_trace E kw (files w) (now_calls w)))).
Proof.
  unfold try_except_Exception. rewrite execute_crew_run. unfold guarded.
  destruct (crew_trace E kw (files w) (now_calls w)) as [[[]|e] fs n evs];
    cbn [run_result]; [reflexivity|].
  destruct (is_Exception e); [|reflexivity].
  rewrite report_error_run. unfold world_after, extend. simpl.
  now rewrite app_assoc.
Qed.

(** A run of [main] with a valid configuration: the set-up, then the
    guarded run of the crew. *)
Lemma main_run (E : Env) (kw : Kwargs) (w : World) :
  validate_config_result E = true ->
  exists evs,
    quiet evs = setup_steps E kw
    /\ main_kwargs E kw w
       = (run_result (main_trace E kw (files w) (now_calls w)),
          mk_World (setup_environ E (environ w))
                   (run_files (main_trace E kw (files w) (now_calls w)))
                   (run_now (main_trace E kw (files w) (now_calls w)))
                   (log w ++ evs
                    ++ run_events (main_trace E kw (files w) (now_calls w)))%list).
Proof.
  intros Hv. destruct (main_valid_run E kw w Hv) as (evs & Hrun & Hq).
  exists evs. split; [exact Hq|].
  rewrite Hrun, try_except_run. unfold world_after, main_trace. simpl.
  now rewrite app_assoc.
Qed.

(** ** Observations on the log *)

Lemma omap_none {A} (f : event -> option A) (evs : list event) :
  Forall (fun e => f e = None) evs -> omap f evs = [].
Proof.
  induction 1 as [|e evs He _ IH]; [reflexivity|].
  cbn. now rewrite He, IH.
Qed.

Lemma omap_quiet {A} (f : event -> option A) (evs : list event) :
  (forall s, f (EvPrint s) = None) -> omap f evs = omap f (quiet evs).
Proof.
  intros Hf. induction evs as [|e evs IH]; [reflexivity|].
  destruct e; cbn; rewrite ?Hf, IH; reflexivity.
Qed.

Lemma existsb_quiet (p : event -> bool) (evs : list event) :
  (forall s, p (EvPrint s) = false) -> existsb p evs = existsb p (quiet evs).
Proof.
  intros Hp. induction evs as [|e evs IH]; [reflexivity|].
  destruct e; cbn; rewrite ?Hp, IH; reflexivity.
Qed.

Lemma existsb_none (p : event -> bool) (evs : list event) :
  Forall (fun e => p e = false) evs -> existsb p evs = false.
Proof.
  induction 1 as [|e evs He _ IH]; [reflexivity|].
  cbn. now rewrite He, IH.
Qed.

(** *** The events of the crew *)

Lemma exec_trace_events (E : Env) (ts : list Task) :
  forall context,
    Forall (fun e => is_execute e = true) (fst (exec_trace E ts context)).
Proof.
  induction ts as [|t rest IH]; intros context; simpl; [constructor|].
  destruct (execute_task E t context) as [out|e].
  - specialize (IH out). destruct (exec_trace E rest out) as [evs r].
    simpl in *. now constructor.
  - simpl. now repeat constructor.
Qed.

(** The tasks executed are the first tasks of the list, in its order; each
    is handed the output of the one before; when all return, all were
    executed and the outputs are theirs. *)
Lemma exec_trace_spec (E : Env) (ts : list Task) :
  forall context,
    let evs := fst (exec_trace E ts context) in
    executed_tasks evs `prefix_of` ts
    /\ handoff context (executions evs) = true
    /\ match snd (exec_trace E ts context) with
       | Returned outs =>
           executed_tasks evs = ts /\ outputs evs = outs
           /\ length outs = length ts
       | Raised e =>
           exists pre t c, executions evs = (pre ++ [(t, c, Raised e)])%list
       end.
Proof.
  induction ts as [|t rest IH]; intros context; simpl.
  - split; [apply prefix_nil|]. split; reflexivity || (splits; reflexivity).
  - destruct (execute_task E t context) as [out|e].
    + specialize (IH out). destruct (exec_trace E rest out) as [evs r].
      simpl in *. destruct IH as (Hp & Hh & Hr).
      unfold executed_tasks, outputs, executions in *. cbn.
      split; [now apply prefix_cons|].
      rewrite String.eqb_refl. split; [exact Hh|].
      destruct r as [outs|e].
      * destruct Hr as (-> & -> & Hl). splits; try reflexivity.
        simpl. now rewrite Hl.
      * destruct Hr as (pre & t' & c' & ->).
        now exists ((t, context, Returned out) :: pre), t', c'.
    + unfold executed_tasks, outputs, executions. cbn.
      split; [apply prefix_cons, prefix_nil|].
      rewrite String.eqb_refl. split; [reflexivity|].
      now exists [], t, context.
Qed.

(** *** The events of the report *)

Lemma write_trace_events (E : Env) (f : string) (datas : list string) :
  forall content,
    Forall (fun e => is_write e = true)
           (fst (fst (write_trace E f content datas))).
Proof.
  induction datas as [|d rest IH]; intros content; simpl; [constructor|].
  destruct (os_write E f content d) as [e|]; simpl; [now repeat constructor|].
  specialize (IH (content ++ d)).
  destruct (write_trace E f (content ++ d) rest) as [[evs c] r].
  simpl in *. now constructor.
Qed.

(** The writes raise at most once, at the end; when none raises the file
    holds what it held followed by everything written. *)
Lemma write_trace_spec (E : Env) (f : string) (datas : list string) :
  forall content,
    match write_trace E f content datas with
    | (evs, c, Some e) => failures evs = [e]
    | (evs, c, None) =>
        failures evs = [] /\ c = content ++ String.concat "" datas
    end.
Proof.
  induction datas as [|d rest IH]; intros content; simpl.
  - split; [reflexivity|]. now rewrite append_empty_r.
  - destruct (os_write E f content d) as [e|]; [reflexivity|].
    specialize (IH (content ++ d)).
    destruct (write_trace E f (content ++ d) rest) as [[evs c] [e|]].
    + exact IH.
    + destruct IH as [Hf ->]. split; [exact Hf|].
      rewrite append_assoc_s. f_equal.
      destruct rest; [now rewrite append_empty_r | reflexivity].
Qed.

Lemma report_trace_events (E : Env) (f : string) (n : nat) (kw : Kwargs)
    (result : string) :
  Forall (fun e => is_write_or_now e = true)
         (fst (fst (fst (report_trace E f n kw result)))).
Proof.
  assert (Hw : forall evs, Forall (fun e => is_write e = true) evs ->
                           Forall (fun e => is_write_or_now e = true) evs).
  { intros evs. apply List.Forall_impl. now intros []. }
  unfold report_trace.
  set (header := header_lines _ _ _ _ _).
  pose proof (write_trace_events E f header "") as H1.
  destruct (write_trace E f "" header) as [[evs1 c1] [e|]]; cbn [fst] in *.
  - now apply Hw.
  - pose proof (write_trace_events E f (body_lines (clock E n) result) c1) as H2.
    destruct (write_trace E f c1 (body_lines (clock E n) result))
      as [[evs2 c2] r]; cbn [fst] in *.
    apply Forall_app. split; [now apply Hw|].
    constructor; [reflexivity | now apply Hw].
Qed.

(** The report raises at most once; when nothing raises, the clock was read
    once more and the file holds the header lines, the time of generation
    and the body. *)
Lemma report_trace_spec (E : Env) (f : string) (n : nat) (kw : Kwargs)
    (result : string) :
  match report_trace E f n kw result with
  | (evs, c, n', Some e) => failures evs = [e]
  | (evs, c, n', None) =>
      failures evs = []
      /\ clock_readings evs = [clock E n]
      /\ n' = S n
      /\ c = String.concat ""
               (header_lines (product_name kw) (product_category kw)
                  (target_audience kw) (campaign_timeline kw) (total_budget kw))
             ++ String.concat "" (body_lines (clock E n) result)
  end.
Proof.
  assert (Hc : forall evs, Forall (fun e => is_write e = true) evs ->
                           clock_readings evs = []).
  { intros evs Hevs. apply omap_none.
    eapply List.Forall_impl; [|exact Hevs]. now intros []. }
  unfold report_trace.
  set (header := header_lines _ _ _ _ _).
  pose proof (write_trace_spec E f header "") as H1.
  pose proof (write_trace_events E f header "") as K1.
  destruct (write_trace E f "" header) as [[evs1 c1] [e|]]; [exact H1|].
  destruct H1 as [Hf1 ->]. rewrite append_empty_l. cbn [fst] in K1.
  pose proof (write_trace_spec E f (body_lines (clock E n) result)
                (String.concat "" header)) as H2.
  pose proof (write_trace_events E f (body_lines (clock E n) result)
                (String.concat "" header)) as K2.
  destruct (write_trace E f (String.concat "" header)
              (body_lines (clock E n) result)) as [[evs2 c2] [e|]];
    cbn [fst] in K2; unfold failures in *.
  - rewrite omap_app, Hf1. cbn. exact H2.
  - destruct H2 as [Hf2 ->]. rewrite omap_app, Hf1. cbn. rewrite Hf2.
    splits; try reflexivity.
    unfold clock_readings in *. rewrite omap_app, (Hc _ K1). cbn.
    now rewrite (Hc _ K2).
Qed.

(** *** The events of a whole run *)

Lemma omap_exec {A} (f : event -> option A) (E : Env) (ts : list Task)
    (context : string) :
  (forall t c r, f (EvExecute t c r) = None) ->
  omap f (fst (exec_trace E ts context)) = [].
Proof.
  intros Hf. apply omap_none.
  eapply List.Forall_impl; [|apply exec_trace_events].
  intros [] He; try discriminate He. apply Hf.
Qed.

Lemma existsb_exec (p : event -> bool) (E : Env) (ts : list Task)
    (context : string) :
  (forall t c r, p (EvExecute t c r) = false) ->
  existsb p (fst (exec_trace E ts context)) = false.
Proof.
  intros Hp. apply existsb_none.
  eapply List.Forall_impl; [|apply exec_trace_events].
  intros [] He; try discriminate He. apply Hp.
Qed.

Lemma omap_report {A} (f : event -> option A) (E : Env) (path : string)
    (n : nat) (kw : Kwargs) (result : string) :
  (forall p d r, f (EvWrite p d r) = None) ->
  (forall t, f (EvNow t) = None) ->
  omap f (fst (fst (fst (report_trace E path n kw result)))) = [].
Proof.
  intros Hw Hn. apply omap_none.
  eapply List.Forall_impl; [|apply report_trace_events].
  intros [] He; try discriminate He; [apply Hn | apply Hw].
Qed.

Lemma report_text_lines (kw : Kwargs) (generated : datetime) (result : string) :
  String.concat ""
    (header_lines (product_name kw) (product_category kw) (target_audience kw)
                  (campaign_timeline kw) (total_budget kw))
  ++ String.concat "" (body_lines generated result)
  = report_text kw generated result.
Proof.
  unfold report_text, report_header, report_footer, body_lines.
  cbn [String.concat]. rewrite !append_empty_l, !append_assoc_s.
  reflexivity.
Qed.

(** Simplifying an observation of a list of events given piece by piece:
    a piece known by the kind of its events contributes nothing to an
    observation of events of another kind. *)
Ltac other_kind :=
  eapply List.Forall_impl; [|eassumption];
  intros [] ?; solve [discriminate | reflexivity].

Ltac observe :=
  unfold kickoffs, executions, created_agents, created_tasks, created_crews,
    kickoff_results, failures, opened, refused, clock_readings, tracebacks,
    completed_prints, saved_prints, error_report in *;
  repeat first
    [ rewrite omap_app
    | rewrite existsb_app
    | match goal with
      | H : omap ?f ?l = _ |- context [omap ?f ?l] => rewrite H
      | H : Forall _ ?l |- context [omap ?f ?l] =>
          rewrite (omap_none f l) by other_kind
      | H : Forall _ ?l |- context [existsb ?p ?l] =>
          rewrite (existsb_none p l) by other_kind
      end
    | progress cbn [omap list_omap existsb app touches_file failure_of orb
                    run_result run_files run_now run_events fst snd] ].

(** The exception of a guarded run is handled. *)
Ltac settle_handled :=
  unfold handled;
  match goal with
  | |- context [is_Exception ?e] =>
      destruct (is_Exception e);
      cbn [run_result run_events];
      [ split; [reflexivity | split; [observe; reflexivity | eexists; reflexivity]]
      | split; [reflexivity | observe; reflexivity] ]
  end.

Ltac enter_run E kw n :=
  unfold main_trace, crew_trace, kickoff_trace, save_trace;
  change (tasks (crew_of kw)) with (five_tasks kw);
  let Hx := fresh "Hx" in
  pose proof (exec_trace_events E (five_tasks kw) "") as Hx.

Lemma main_trace_course (E : Env) (kw : Kwargs) (fs : gmap string string)
    (n : nat) :
  course E kw fs n (main_trace E kw fs n).
Proof.
  enter_run E kw n.
  destruct (exec_trace E (five_tasks kw) "") as [xevs [outs|e]] eqn:Hxt;
    cbn [fst snd] in *.
  2:{ apply crew_failed with (e := e); [now rewrite Hxt|..];
        unfold guarded; cbn [run_result];
        try (destruct (is_Exception e); observe; reflexivity).
      settle_handled. }
  set (path := path_str (output_path E kw n)).
  destruct (os_open E path) as [e|] eqn:Ho.
  { apply open_failed with (outs := outs) (e := e);
      [now rewrite Hxt | exact Ho |..];
      unfold guarded; cbn [run_result];
      try (destruct (is_Exception e); observe; reflexivity).
    settle_handled. }
  pose proof (report_trace_events E path (S n) kw (String.concat "" outs)) as Hw.
  pose proof (report_trace_spec E path (S n) kw (String.concat "" outs)) as Hs.
  destruct (report_trace E path (S n) kw (String.concat "" outs))
    as [[[wevs c] n'] [e|]]; cbn [fst] in *.
  - apply write_failed with (outs := outs) (e := e) (c := c);
      [now rewrite Hxt | exact Ho |..];
      unfold guarded; cbn [run_result];
      try (destruct (is_Exception e); observe; reflexivity).
    settle_handled.
  - destruct Hs as (Hf & Hc & -> & ->). rewrite report_text_lines.
    apply saved with (outs := outs); [now rewrite Hxt | exact Ho |..];
      unfold guarded; cbn [run_result]; observe; try reflexivity.
Qed.

(** What holds of every run that reached the [try] statement: [kickoff] is
    called once, on the crew; the executions are those of the crew's tasks;
    nothing is created any more. *)
Lemma main_trace_common (E : Env) (kw : Kwargs) (fs : gmap string string)
    (n : nat) :
  let evs := run_events (main_trace E kw fs n) in
  kickoffs evs = [crew_of kw]
  /\ executions evs = executions (fst (exec_trace E (five_tasks kw) ""))
  /\ created_agents evs = []
  /\ created_tasks evs = []
  /\ created_crews evs = [].
Proof.
  enter_run E kw n.
  destruct (exec_trace E (five_tasks kw) "") as [xevs [outs|e]];
    cbn [fst snd] in *.
  2:{ unfold guarded; cbn [run_result].
      destruct (is_Exception e); observe;
        rewrite ?app_nil_r; splits; reflexivity. }
  set (path := path_str (output_path E kw n)).
  destruct (os_open E path) as [e|].
  { unfold guarded; cbn [run_result].
    destruct (is_Exception e); observe;
      rewrite ?app_nil_r; splits; reflexivity. }
  pose proof (report_trace_events E path (S n) kw (String.concat "" outs)) as Hw.
  destruct (report_trace E path (S n) kw (String.concat "" outs))
    as [[[wevs c] n'] [e|]]; cbn [fst] in *;
    unfold guarded; cbn [run_result];
    try destruct (is_Exception e); observe;
    rewrite ?app_nil_r; splits; reflexivity.
Qed.

(** *** The observations of a run of [main] *)

Lemma setup_observed (E : Env) (kw : Kwargs) :
  let evs := setup_steps E kw in
  created_agents evs = five_agents kw
  /\ created_tasks evs = five_tasks kw
  /\ created_crews evs = [crew_of kw]
  /\ kickoffs evs = []
  /\ executions evs = []
  /\ failures evs = []
  /\ kickoff_results evs = []
  /\ opened evs = []
  /\ refused evs = []
  /\ clock_readings evs = []
  /\ tracebacks evs = []
  /\ existsb touches_file evs = false.
Proof.
  unfold setup_steps. destruct (Config_USE_GROQ E); splits; reflexivity.
Qed.

(** A run with a valid configuration, observed: what the set-up created,
    then the observations of the guarded run of the crew. *)
Lemma main_observed (E : Env) (kw : Kwargs) (w : World) :
  validate_config_result E = true ->
  let evs := events_of (main_kwargs E kw) w in
  let r := main_trace E kw (files w) (now_calls w) in
  fst (main_kwargs E kw w) = run_result r
  /\ files (snd (main_kwargs E kw w)) = run_files r
  /\ environ (snd (main_kwargs E kw w)) = setup_environ E (environ w)
  /\ created_agents evs = five_agents kw
  /\ created_tasks evs = five_tasks kw
  /\ created_crews evs = [crew_of kw]
  /\ kickoffs evs = [crew_of kw]
  /\ executions evs = executions (fst (exec_trace E (five_tasks kw) ""))
  /\ failures evs = failures (run_events r)
  /\ kickoff_results evs = kickoff_results (run_events r)
  /\ opened evs = opened (run_events r)
  /\ refused evs = refused (run_events r)
  /\ clock_readings evs = clock_readings (run_events r)
  /\ tracebacks evs = tracebacks (run_events r)
  /\ existsb touches_file evs = existsb touches_file (run_events r)
  /\ (forall before tail,
        run_events r = (before ++ tail)%list ->
        exists before', evs = (before' ++ tail)%list).
Proof.
  intros Hv evs r. destruct (main_run E kw w Hv) as (sevs & Hq & Hrun).
  fold r in Hrun.
  assert (Hevs : evs = (sevs ++ run_events r)%list).
  { subst evs. unfold events_of. rewrite Hrun. cbn [snd log]. apply drop_log. }
  assert (Ho : forall A (f : event -> option A),
             (forall s, f (EvPrint s) = None) ->
             omap f evs = (omap f (setup_steps E kw) ++ omap f (run_events r))%list).
  { intros A f Hf. now rewrite Hevs, omap_app, (omap_quiet f sevs Hf), Hq. }
  destruct (setup_observed E kw)
    as (Sa & St & Sc & Sk & Sx & Sf & Sr & So & Sd & Sn & Sb & Sw).
  destruct (main_trace_common E kw (files w) (now_calls w))
    as (Ck & Cx & Ca & Ct & Cc).
  fold r in Ck, Cx, Ca, Ct, Cc.
  unfold created_agents, created_tasks, created_crews, kickoffs, executions,
    failures, kickoff_results, opened, refused, clock_readings, tracebacks in *.
  rewrite Hrun. cbn [fst snd files environ].
  splits; try reflexivity;
    try (rewrite Ho by reflexivity;
         rewrite ?Sa, ?St, ?Sc, ?Sk, ?Sx, ?Sf, ?Sr, ?So, ?Sd, ?Sn, ?Sb,
                 ?Ck, ?Cx, ?Ca, ?Ct, ?Cc, ?app_nil_r; reflexivity).
  - rewrite Hevs, existsb_app, (existsb_quiet touches_file sevs), Hq, Sw
      by reflexivity.
    reflexivity.
  - intros before tail Hr. exists (sevs ++ before)%list.
    now rewrite Hevs, Hr, app_assoc.
Qed.

Lemma omap_no_acts {A} (f : event -> option A) (evs : list event) :
  (forall e, acts e = false -> f e = None) ->
  existsb acts evs = false -> omap f evs = [].
Proof.
  intros Hf. induction evs as [|e evs IH]; [reflexivity|].
  cbn. intros [He Hevs]%orb_false_iff. now rewrite (Hf e He), IH.
Qed.

Lemma existsb_no_acts (p : event -> bool) (evs : list event) :
  (forall e, acts e = false -> p e = false) ->
  existsb acts evs = false -> existsb p evs = false.
Proof.
  intros Hp. induction evs as [|e evs IH]; [reflexivity|].
  cbn. intros [He Hevs]%orb_false_iff. now rewrite (Hp e He), IH.
Qed.

(** A run with an invalid configuration, observed. *)
Lemma main_unobserved (E : Env) (kw : Kwargs) (w : World) :
  validate_config_result E = false ->
  let evs := events_of (main_kwargs E kw) w in
  fst (main_kwargs E kw w) = Raised (SystemExit 1)
  /\ files (snd (main_kwargs E kw w)) = files w
  /\ created_agents evs = []
  /\ created_tasks evs = []
  /\ created_crews evs = []
  /\ kickoffs evs = []
  /\ executions evs = []
  /\ failures evs = []
  /\ kickoff_results evs = []
  /\ opened evs = []
  /\ refused evs = []
  /\ existsb touches_file evs = false.
Proof.
  intros Hv evs. destruct (main_invalid_run E kw w Hv) as (ievs & Hrun & Hacts).
  assert (Hevs : evs = ievs).
  { subst evs. unfold events_of. rewrite Hrun. cbn [snd extend log].
    apply drop_log. }
  rewrite Hrun, Hevs. cbn [fst snd extend files].
  splits; try reflexivity;
    try (apply omap_no_acts; [now intros [] | exact Hacts]).
  apply existsb_no_acts; [now intros [] | exact Hacts].
Qed.

(** The events of a run with a valid configuration: those of the set-up,
    then those of the guarded run of the crew. *)
Lemma main_events (E : Env) (kw : Kwargs) (w : World) :
  validate_config_result E = true ->
  exists sevs,
    quiet sevs = setup_steps E kw
    /\ events_of (main_kwargs E kw) w
       = (sevs ++ run_events (main_trace E kw (files w) (now_calls w)))%list.
Proof.
  intros Hv. destruct (main_run E kw w Hv) as (sevs & Hq & Hrun).
  exists sevs. split; [exact Hq|].
  unfold events_of. rewrite Hrun. cbn [snd log]. apply drop_log.
Qed.

(** ** The crew *)

(** C4: the crew is composed of five agents, each created once and in this
    order: Market Research Analyst, Content Strategist, Marketing Channel
    Specialist, Campaign Planner, Marketing Budget Analyst.  None may
    delegate.  There are five tasks, created once each, and the i-th task is
    assigned to the i-th agent.  The crew is created once, from these agents
    and these tasks; with an invalid configuration nothing is created. *)
Theorem crew_composition :
  forall (E : Env) (kw : Kwargs) (w : World),
    let evs := events_of (main_kwargs E kw) w in
    let c := crew_of kw in
    (if validate_config_result E
     then created_agents evs = agents c
          /\ created_tasks evs = tasks c
          /\ created_crews evs = [c]
     else created_agents evs = []
          /\ created_tasks evs = []
          /\ created_crews evs = [])
    /\ agents c
       = [ market_research_agent_of (product_name kw) (product_category kw);
           content_strategist_agent_of (product_name kw) (target_audience kw);
           channel_specialist_agent_of (product_category kw) (target_audience kw);
           campaign_planner_agent_of (product_name kw) (target_audience kw);
           budget_analyst_agent_of (product_category kw) ]
    /\ List.map role (agents c)
       = [ "Market Research Analyst"; "Content Strategist";
           "Marketing Channel Specialist"; "Campaign Planner";
           "Marketing Budget Analyst" ]
    /\ List.map allow_delegation (agents c) = [false; false; false; false; false]
    /\ length (tasks c) = 5%nat
    /\ List.map agent (tasks c) = agents c.
Proof.
  intros E kw w evs c. split; [|splits; reflexivity].
  destruct (validate_config_result E) eqn:Hv.
  - destruct (main_observed E kw w Hv) as (_ & _ & _ & Ha & Ht & Hc & _).
    splits; assumption.
  - destruct (main_unobserved E kw w Hv) as (_ & _ & Ha & Ht & Hc & _).
    splits; assumption.
Qed.

(** The tasks, when all return, in terms of what was logged. *)
Lemma all_tasks_return (E : Env) (ts : list Task) (context : string)
    (outs : list string) :
  snd (exec_trace E ts context) = Returned outs ->
  let xs := executions (fst (exec_trace E ts context)) in
  List.map (fun x => fst (fst x)) xs = ts
  /\ omap (fun x => match snd x with
                    | Returned out => Some out
                    | Raised _ => None
                    end) xs = outs
  /\ length outs = length ts.
Proof.
  intros Hr. pose proof (exec_trace_spec E ts context) as (_ & _ & Hs).
  rewrite Hr in Hs. exact Hs.
Qed.

Lemma executions_events (evs : list event) :
  Forall (fun e => is_execute e = true) evs ->
  List.map exec_event (executions evs) = evs.
Proof.
  induction 1 as [|e evs He _ IH]; [reflexivity|].
  destruct e; try discriminate He. unfold executions in *. cbn.
  now rewrite IH.
Qed.

(** The guarded run starts with the crew: the call of [kickoff], the
    executions, the end of [kickoff]; nothing of the crew comes later. *)
Lemma main_trace_block (E : Env) (kw : Kwargs) (fs : gmap string string)
    (n : nat) :
  exists after,
    run_events (main_trace E kw fs n)
    = (EvKickoff (crew_of kw)
       :: fst (exec_trace E (five_tasks kw) "")
       ++ EvKickoffDone
            match snd (exec_trace E (five_tasks kw) "") with
            | Returned outs => Returned (String.concat "" outs)
            | Raised e => Raised e
            end
       :: after)%list
    /\ existsb is_crew_event after = false.
Proof.
  enter_run E kw n.
  destruct (exec_trace E (five_tasks kw) "") as [xevs [outs|e]];
    cbn [fst snd] in *.
  2:{ unfold guarded; cbn [run_result].
      destruct (is_Exception e); cbn [run_events app]; eexists;
        (split; [rewrite <- ?app_assoc; cbn [app]; try rewrite app_nil_r;
                 reflexivity | reflexivity]). }
  set (path := path_str (output_path E kw n)).
  destruct (os_open E path) as [e|].
  { unfold guarded; cbn [run_result].
    destruct (is_Exception e); cbn [run_events app]; eexists;
      (split; [rewrite <- ?app_assoc; cbn [app]; reflexivity | reflexivity]). }
  pose proof (report_trace_events E path (S n) kw (String.concat "" outs)) as Hw.
  destruct (report_trace E path (S n) kw (String.concat "" outs))
    as [[[wevs c] n'] [e|]]; cbn [fst] in *;
    unfold guarded; cbn [run_result];
    try destruct (is_Exception e); cbn [run_events app]; eexists;
    (split; [rewrite <- ?app_assoc; cbn [app]; reflexivity
            | observe; reflexivity]).
Qed.

(** C1: the crew is a fixed sequential pipeline of five tasks.  In a run
    that reaches the orchestration (the configuration validates) the crew
    is sequential and its tasks are the market research, the content
    strategy, the channel strategy, the campaign plan and the budget
    allocation, in this order.  [kickoff] is invoked exactly once.  Between
    its call and its end the log holds the executions of the tasks, one
    after the other and nothing else, and no task is executed before or
    after: no two executions overlap.  The tasks executed are the first
    tasks of the crew, in its order and each once: no branch, no retry.
    Each task is handed the output of the one before it.  When [kickoff]
    returns, all five tasks have been executed and its result is made of
    their five outputs. *)
Theorem sequential_pipeline :
  forall (E : Env) (kw : Kwargs) (w : World),
    let evs := events_of (main_kwargs E kw) w in
    let c := crew_of kw in
    validate_config_result E = true ->
    kickoffs evs = [c]
    /\ process c = "sequential"
    /\ tasks c
       = [ market_research_task_of
             (market_research_agent_of (product_name kw) (product_category kw))
             (product_name kw) (product_category kw) (target_audience kw)
             (product_description kw);
           content_strategy_task_of
             (content_strategist_agent_of (product_name kw) (target_audience kw))
             (product_name kw) (product_description kw) (target_audience kw)
             (unique_value_proposition kw);
           channel_strategy_task_of
             (channel_specialist_agent_of (product_category kw)
                                          (target_audience kw))
             (product_name kw) (product_category kw) (target_audience kw)
             (marketing_objectives kw);
           campaign_plan_task_of
             (campaign_planner_agent_of (product_name kw) (target_audience kw))
             (product_name kw) (target_audience kw) (campaign_timeline kw)
             (marketing_objectives kw);
           budget_allocation_task_of
             (budget_analyst_agent_of (product_category kw))
             (product_name kw) (total_budget kw) (marketing_objectives kw)
             (campaign_timeline kw) ]
    /\ (exists before after outcome,
          evs = (before
                 ++ EvKickoff c
                 :: List.map exec_event (executions evs)
                 ++ EvKickoffDone outcome :: after)%list
          /\ existsb is_crew_event before = false
          /\ existsb is_crew_event after = false
          /\ match outcome with
             | Returned result =>
                 executed_tasks evs = tasks c
                 /\ length (outputs evs) = 5%nat
                 /\ result = String.concat "" (outputs evs)
             | Raised e =>
                 exists earlier t context,
                   executions evs = (earlier ++ [(t, context, Raised e)])%list
             end)
    /\ executed_tasks evs `prefix_of` tasks c
    /\ handoff "" (executions evs) = true.
Proof.
  intros E kw w evs c Hv.
  destruct (main_observed E kw w Hv) as (_ & _ & _ & _ & _ & _ & Hk & Hx & _).
  destruct (main_events E kw w Hv) as (sevs & Hq & Hevs).
  destruct (main_trace_block E kw (files w) (now_calls w))
    as (after & Hblock & Hafter).
  pose proof (exec_trace_spec E (five_tasks kw) "") as (Hp & Hh & Hs).
  pose proof (exec_trace_events E (five_tasks kw) "") as Hxe.
  fold evs in Hk, Hx, Hevs.
  split; [exact Hk|]. split; [reflexivity|]. split; [reflexivity|].
  unfold executed_tasks, outputs in *. rewrite Hx.
  split; [|split; [exact Hp | exact Hh]].
  exists sevs, after. eexists. split; [|split; [|split; [exact Hafter|]]].
  - rewrite Hevs, Hblock, (executions_events _ Hxe). reflexivity.
  - rewrite (existsb_quiet is_crew_event sevs), Hq by reflexivity.
    unfold setup_steps. now destruct (Config_USE_GROQ E).
  - destruct (snd (exec_trace E (five_tasks kw) "")) as [outs|e].
    + destruct Hs as (Ht & Ho & Hl). rewrite Ho. splits; auto.
    + exact Hs.
Qed.

(** C1 on the sample run. *)
Lemma sequential_pipeline_witness :
  let E := sample_env in
  let kw := default_kwargs in
  let evs := events_of (main_kwargs E kw) empty_world in
  let c := crew_of kw in
  validate_config_result E = true
  /\ kickoffs evs = [c]
  /\ process c = "sequential"
  /\ tasks c = five_tasks kw
  /\ (exists before after outcome,
        evs = (before
               ++ EvKickoff c
               :: List.map exec_event (executions evs)
               ++ EvKickoffDone outcome :: after)%list
        /\ existsb is_crew_event before = false
        /\ existsb is_crew_event after = false
        /\ match outcome with
           | Returned result =>
               executed_tasks evs = tasks c
               /\ length (outputs evs) = 5%nat
               /\ result = String.concat "" (outputs evs)
           | Raised e =>
               exists earlier t context,
                 executions evs = (earlier ++ [(t, context, Raised e)])%list
           end)
  /\ executed_tasks evs `prefix_of` tasks c
  /\ handoff "" (executions evs) = true.
Proof.
  intros E kw evs c.
  assert (Hv : validate_config_result E = true) by reflexivity.
  split; [exact Hv|].
  exact (sequential_pipeline sample_env default_kwargs empty_world Hv).
Defined.

(** The sample run executes the five tasks, and [kickoff] returns. *)
Example sample_pipeline :
  executed_tasks (events_of (main_kwargs sample_env default_kwargs)
                            empty_world)
  = five_tasks default_kwargs
  /\ length (kickoff_results
               (events_of (main_kwargs sample_env default_kwargs)
                          empty_world)) = 1%nat.
Proof. split; vm_compute; reflexivity. Qed.

(** *** What follows a failure *)





(** ** Failures *)




(** ** The report *)

(** C9 (amended): a report file is created only after [kickoff] has
    returned without raising, and then exactly when [open] accepts its
    path.  When [kickoff] does not return (it raised, or the configuration
    did not validate) no file is opened, written or closed and the files
    are as they were; when [kickoff] returns and [open] raises, the path is
    refused, that exception is the failure of the run and the files are as
    they were. *)
Theorem report_only_after_kickoff :
  forall (E : Env) (kw : Kwargs) (w : World),
    let evs := events_of (main_kwargs E kw) w in
    let after := files (snd (main_kwargs E kw w)) in
    let path := path_str (output_path E kw (now_calls w)) in
    match kickoff_results evs, os_open E path with
    | [], _ =>
        opened evs = [] /\ existsb touches_file evs = false /\ after = files w
    | _ :: rest, None =>
        rest = [] /\ opened evs = [path] /\ is_Some (after !! path)
    | _ :: rest, Some e =>
        rest = [] /\ opened evs = [] /\ refused evs = [path]
        /\ failures evs = [e] /\ after = files w
    end.
Proof.
  intros E kw w evs after path.
  destruct (validate_config_result E) eqn:Hv.
  2:{ destruct (main_unobserved E kw w Hv)
        as (_ & Hfs & _ & _ & _ & _ & _ & _ & Hr & Ho & _ & Ht).
      fold evs in Hr, Ho, Ht. fold after in Hfs. now rewrite Hr. }
  destruct (main_observed E kw w Hv)
    as (_ & Hfs & _ & _ & _ & _ & _ & _ & Hf & Hr & Ho & Hd & _ & _ & Ht & _).
  fold evs in Hf, Hr, Ho, Hd, Ht. fold after in Hfs.
  rewrite Hf, Hr, Ho, Hd, Ht, Hfs.
  destruct (main_trace_course E kw (files w) (now_calls w))
    as [r x _ _ Kr Ko _ Kt _ Kf _ | r outs x _ Hopen Kx Kr Ko Kd _ Kf _
        | r outs x c _ Hopen _ Kr Ko _ _ Kf _ | r outs _ Hopen _ Kr Ko _ _ _ Kf _];
    fold path in Hopen || idtac; rewrite Kr, ?Hopen.
  - now rewrite Ko, Kt, Kf.
  - now rewrite Ko, Kd, Kx, Kf.
  - rewrite Ko, Kf. fold path. splits; try reflexivity.
    rewrite lookup_insert_eq. now eexists.
  - rewrite Ko, Kf. fold path. splits; try reflexivity.
    rewrite lookup_insert_eq. now eexists.
Qed.

(** C9 as stated fails: when the report cannot be created, [kickoff] has
    returned without raising and there is no report file. *)
Lemma kickoff_returns_without_report :
  kickoff_results (events_of (main_kwargs refusing_env default_kwargs)
                             empty_world) <> []
  /\ opened (events_of (main_kwargs refusing_env default_kwargs) empty_world)
     = []
  /\ files (snd (main_kwargs refusing_env default_kwargs empty_world)) = ∅.
Proof.
  split; [vm_compute; discriminate|]. split; vm_compute; reflexivity.
Qed.

(** *** Strings of the report and of its name *)

Lemma contains_concat (x : string) (l : list string) :
  In x l -> contains x (String.concat "" l).
Proof.
  induction l as [|a l IH]; [intros []|].
  intros [->|Hin].
  - destruct l; [apply contains_refl | apply contains_here].
  - destruct l as [|b l]; [destruct Hin|].
    change (String.concat "" (a :: b :: l))
      with (a ++ "" ++ String.concat "" (b :: l)).
    apply contains_skip, contains_skip, IH, Hin.
Qed.

Lemma contains_header_line (kw : Kwargs) (generated : datetime) (line : string) :
  In line (header_lines (product_name kw) (product_category kw)
             (target_audience kw) (campaign_timeline kw) (total_budget kw)) ->
  contains line (report_header kw generated).
Proof.
  intros Hin. unfold report_header. apply contains_app_l, contains_concat, Hin.
Qed.





(** The two formats of the script, directive by directive. *)
Lemma strftime_stamp (t : datetime) :
  strftime "%Y%m%d_%H%M%S" t
  = pad4 (year t) ++ pad2 (month t) ++ pad2 (day t) ++ "_"
    ++ pad2 (hour t) ++ pad2 (minute t) ++ pad2 (second t).
Proof. cbn [strftime directive Ascii.eqb Bool.eqb]. now rewrite append_empty_r. Qed.

Lemma strftime_generated (t : datetime) :
  strftime "%Y-%m-%d %H:%M:%S" t
  = pad4 (year t) ++ "-" ++ pad2 (month t) ++ "-" ++ pad2 (day t) ++ " "
    ++ pad2 (hour t) ++ ":" ++ pad2 (minute t) ++ ":" ++ pad2 (second t).
Proof. cbn [strftime directive Ascii.eqb Bool.eqb]. now rewrite append_empty_r. Qed.




(** C3: when the pipeline completes without exception, the report is saved.
    All five tasks were executed; the result of the crew is the
    concatenation of their five outputs; the file at the path of the report
    holds the header, then that result, then the closing rule.  The header
    has a line for the product name, the category, the target audience, the
    budget (a dollar sign and the amount with grouped thousands), the
    timeline and the time of generation, read from the clock when the
    header is written.  Every output is part of what follows the header. *)
Theorem report_contents :
  forall (E : Env) (kw : Kwargs) (w : World),
    let evs := events_of (main_kwargs E kw) w in
    let path := path_str (output_path E kw (now_calls w)) in
    let generated := clock E (S (now_calls w)) in
    let combined := String.concat "" (outputs evs) in
    fst (main_kwargs E kw w) = Returned tt ->
    failures evs = [] ->
    executed_tasks evs = tasks (crew_of kw)
    /\ length (outputs evs) = 5%nat
    /\ kickoff_results evs = [combined]
    /\ opened evs = [path]
    /\ clock_readings evs = [clock E (now_calls w); generated]
    /\ files (snd (main_kwargs E kw w)) !! path
       = Some (report_header kw generated ++ combined ++ report_footer)
    /\ contains ("Product: " ++ product_name kw ++ nl)
                (report_header kw generated)
    /\ contains ("Category: " ++ product_category kw ++ nl)
                (report_header kw generated)
    /\ contains ("Target Audience: " ++ target_audience kw ++ nl)
                (report_header kw generated)
    /\ contains ("Budget: $" ++ format_comma_0f (total_budget kw) ++ nl)
                (report_header kw generated)
    /\ contains ("Timeline: " ++ campaign_timeline kw ++ nl)
                (report_header kw generated)
    /\ contains ("Generated: " ++ strftime "%Y-%m-%d %H:%M:%S" generated ++ nl)
                (report_header kw generated)
    /\ Forall (fun out => contains out combined) (outputs evs).
Proof.
  intros E kw w evs path generated combined Hret Hnone.
  destruct (validate_config_result E) eqn:Hv.
  2:{ destruct (main_unobserved E kw w Hv) as (Hr & _).
      rewrite Hr in Hret. discriminate Hret. }
  destruct (main_observed E kw w Hv)
    as (_ & Hfs & _ & _ & _ & _ & _ & Hx & Hf & Hr & Ho & _ & Hn & _).
  fold evs in Hx, Hf, Hr, Ho, Hn. rewrite Hf in Hnone.
  subst combined. unfold executed_tasks, outputs.
  rewrite Hfs, Hx, Hr, Ho, Hn.
  destruct (main_trace_course E kw (files w) (now_calls w))
    as [r x _ Kx | r outs x _ _ Kx | r outs x c _ _ Kx
        | r outs Hxt _ _ Kr Ko _ Kn _ Kf _];
    try (rewrite Kx in Hnone; discriminate Hnone).
  destruct (all_tasks_return E _ _ _ Hxt) as (Ht & Hout & Hl).
  rewrite Ht, Hout, Hl, Kr, Ko, Kn, Kf. fold path generated.
  splits; try reflexivity.
  - apply lookup_insert_eq.
  - apply contains_header_line. simpl. tauto.
  - apply contains_header_line. simpl. tauto.
  - apply contains_header_line. simpl. tauto.
  - apply contains_header_line. simpl. tauto.
  - apply contains_header_line. simpl. tauto.
  - unfold report_header. apply contains_skip.
    exists "". eexists. rewrite append_empty_l, !append_assoc_s. reflexivity.
  - rewrite Forall_forall. intros out Hin. now apply contains_concat.
Qed.

(** C3 on the sample run. *)
Lemma report_contents_witness :
  let E := sample_env in
  let kw := default_kwargs in
  let w := empty_world in
  let evs := events_of (main_kwargs E kw) w in
  let path := path_str (output_path E kw (now_calls w)) in
  let generated := clock E (S (now_calls w)) in
  let combined := String.concat "" (outputs evs) in
  fst (main_kwargs E kw w) = Returned tt
  /\ failures evs = []
  /\ executed_tasks evs = tasks (crew_of kw)
  /\ length (outputs evs) = 5%nat
  /\ kickoff_results evs = [combined]
  /\ opened evs = [path]
  /\ clock_readings evs = [clock E (now_calls w); generated]
  /\ files (snd (main_kwargs E kw w)) !! path
     = Some (report_header kw generated ++ combined ++ report_footer)
  /\ contains ("Product: " ++ product_name kw ++ nl)
              (report_header kw generated)
  /\ contains ("Category: " ++ product_category kw ++ nl)
              (report_header kw generated)
  /\ contains ("Target Audience: " ++ target_audience kw ++ nl)
              (report_header kw generated)
  /\ contains ("Budget: $" ++ format_comma_0f (total_budget kw) ++ nl)
              (report_header kw generated)
  /\ contains ("Timeline: " ++ campaign_timeline kw ++ nl)
              (report_header kw generated)
  /\ contains ("Generated: " ++ strftime "%Y-%m-%d %H:%M:%S" generated ++ nl)
              (report_header kw generated)
  /\ Forall (fun out => contains out combined) (outputs evs).
Proof.
  intros E kw w evs path generated combined.
  assert (Hret : fst (main_kwargs E kw w) = Returned tt)
    by (vm_compute; reflexivity).
  assert (Hnone : failures evs = []) by (vm_compute; reflexivity).
  split; [exact Hret|]. split; [exact Hnone|].
  exact (report_contents sample_env default_kwargs empty_world Hret Hnone).
Defined.

(** The sample report, as saved. *)
Example sample_report :
  files (snd (main_kwargs sample_env default_kwargs empty_world))
  !! "/home/lab/crewai/marketing_strategy_ai-powered_task_manager_20250115_103000.txt"
  = Some
      (mul "=" 80 ++ nl
       ++ "MARKETING STRATEGY REPORT" ++ nl
       ++ mul "=" 80 ++ nl ++ nl
       ++ "Product: AI-Powered Task Manager" ++ nl
       ++ "Category: Productivity Software" ++ nl
       ++ "Target Audience: Small to medium-sized business teams and remote workers" ++ nl
       ++ "Budget: $50,000" ++ nl
       ++ "Timeline: 3 months (Q1 launch campaign)" ++ nl
       ++ "Generated: 2025-01-15 10:30:01" ++ nl ++ nl
       ++ mul "=" 80 ++ nl
       ++ "COMPREHENSIVE MARKETING STRATEGY" ++ nl
       ++ mul "=" 80 ++ nl ++ nl
       ++ "[Market Research Analyst after 0][Content Strategist after 33]"
       ++ "[Marketing Channel Specialist after 29][Campaign Planner after 39]"
       ++ "[Marketing Budget Analyst after 27]"
       ++ nl ++ mul "=" 80 ++ nl).
Proof. vm_compute. reflexivity. Qed.




(** ** Sample values *)

Example format_default_budget : format_comma_0f (of_N 50000) = "50,000".
Proof. reflexivity. Qed.

Example format_millions : format_comma_0f (of_N 1234567) = "1,234,567".
Proof. reflexivity. Qed.

Example format_hundreds : format_comma_0f (of_N 999) = "999".
Proof. reflexivity. Qed.

(** 2.5 and 3.5: ties go to the even integer. *)
Example format_tie_down : format_comma_0f (Finite false 5 (-1)) = "2".
Proof. reflexivity. Qed.

Example format_tie_up : format_comma_0f (Finite false 7 (-1)) = "4".
Proof. reflexivity. Qed.

(** -1234.75 *)
Example format_negative : format_comma_0f (Finite true 4939 (-2)) = "-1,235".
Proof. reflexivity. Qed.

Example metrics_prompt_budget :
  match fst (calculate_marketing_metrics (of_N 50000) "email, social"
                                         empty_world) with
  | Returned s =>
      occurs "for $50,000 budget across email, social" s = true
  | Raised _ => False
  end.
Proof. vm_compute. reflexivity. Qed.

Example stamp_of_a_morning :
  strftime "%Y%m%d_%H%M%S" (mk_datetime 2025 3 7 9 5 0) = "20250307_090500".
Proof. reflexivity. Qed.

Example name_of_default_report :
  report_name "AI-Powered Task Manager" (mk_datetime 2025 3 7 9 5 0)
  = "marketing_strategy_ai-powered_task_manager_20250307_090500.txt".
Proof. reflexivity. Qed.

Example path_of_nested_name :
  path_str (path_div ["/"; "srv"; "lab"] "a/b.txt") = "/srv/lab/a/b.txt".
Proof. reflexivity. Qed.

(** The command line [script "Smart Lamp" "Home" 75000]. *)
Example three_arguments :
  fst (parse_args sample_env
         ["crewai_marketing_strategy.py"; "Smart Lamp"; "Home"; "75000"]
         empty_world)
  = Returned
      (set_total_budget (of_N 75000)
         (set_product_category "Home"
            (set_product_name "Smart Lamp" default_kwargs))).
Proof. reflexivity. Qed.

Example budget_not_a_number :
  script sample_env
         ["crewai_marketing_strategy.py"; "Smart Lamp"; "Home"; "lots"]
         empty_world
  = (Raised (PyException "ValueError"
               "could not convert string to float: 'lots'"),
     empty_world).
Proof. reflexivity. Qed.

(** The sample run hands each task the output of the one before it. *)
Example sample_contexts :
  List.map (fun x => snd (fst x))
    (executions (events_of (main_kwargs sample_env default_kwargs)
                           empty_world))
  = [ "";
      "[Market Research Analyst after 0]";
      "[Content Strategist after 33]";
      "[Marketing Channel Specialist after 29]";
      "[Campaign Planner after 39]" ].
Proof. vm_compute. reflexivity. Qed.

(** When the third task fails, two tasks have returned and the third has
    raised; the report is not opened. *)
Example failing_run :
  List.map (fun x => role (agent (fst (fst x))))
    (executions (events_of (main_kwargs failing_env default_kwargs)
                           empty_world))
  = [ "Market Research Analyst"; "Content Strategist";
      "Marketing Channel Specialist" ]
  /\ existsb touches_file
       (events_of (main_kwargs failing_env default_kwargs) empty_world)
     = false.
Proof. split; vm_compute; reflexivity. Qed.

(** ** The run as a whole *)

Ltac kinds :=
  repeat first
    [ solve [ eapply List.Forall_impl; [|eassumption];
              intros [] ?; solve [discriminate | reflexivity] ]
    | apply Forall_app; split
    | constructor; [reflexivity|]
    | constructor ].

Lemma main_trace_kinds (E : Env) (kw : Kwargs) (fs : gmap string string)
    (n : nat) :
  Forall (fun e => in_try e = true) (run_events (main_trace E kw fs n)).
Proof.
  enter_run E kw n.
  destruct (exec_trace E (five_tasks kw) "") as [xevs [outs|e]];
    cbn [fst snd] in *.
  2:{ unfold guarded; cbn [run_result].
      destruct (is_Exception e); cbn [run_events];
        unfold error_report; kinds. }
  set (path := path_str (output_path E kw n)).
  destruct (os_open E path) as [e|].
  { unfold guarded; cbn [run_result].
    destruct (is_Exception e); cbn [run_events];
      unfold error_report, completed_prints; kinds. }
  pose proof (report_trace_events E path (S n) kw (String.concat "" outs)) as Hw.
  destruct (report_trace E path (S n) kw (String.concat "" outs))
    as [[[wevs c] n'] [e|]]; cbn [fst] in *;
    unfold guarded; cbn [run_result];
    try destruct (is_Exception e); cbn [run_events];
    unfold error_report, completed_prints, saved_prints; kinds.
Qed.

(** The guarded run of the crew assigns no environment variable. *)
Lemma omap_in_try {A} (f : event -> option A) (evs : list event) :
  (forall e, in_try e = true -> f e = None) ->
  Forall (fun e => in_try e = true) evs -> omap f evs = [].
Proof.
  intros Hf Hevs. apply omap_none.
  eapply List.Forall_impl; [|exact Hevs]. exact Hf.
Qed.

(** X1: the environment variables.  A run whose configuration validates
    assigns [OPENAI_API_KEY], then [OPENAI_API_BASE], then, only when the
    configuration selects Groq, [OPENAI_MODEL_NAME], each once and with the
    value of the configuration; these hold when [main] ends, however the
    crew fared, and every other variable is as it was.  A run whose
    configuration does not validate assigns nothing. *)
Theorem environment_configured :
  forall (E : Env) (kw : Kwargs) (w : World),
    let evs := events_of (main_kwargs E kw) w in
    let env' := environ (snd (main_kwargs E kw w)) in
    if validate_config_result E
    then assignments evs
         = ([ ("OPENAI_API_KEY", Config_API_KEY E);
              ("OPENAI_API_BASE", Config_API_BASE E) ]
            ++ (if Config_USE_GROQ E
                then [("OPENAI_MODEL_NAME", Config_OPENAI_MODEL E)]
                else []))%list
         /\ env' !! "OPENAI_API_KEY" = Some (Config_API_KEY E)
         /\ env' !! "OPENAI_API_BASE" = Some (Config_API_BASE E)
         /\ env' !! "OPENAI_MODEL_NAME"
            = (if Config_USE_GROQ E then Some (Config_OPENAI_MODEL E)
               else environ w !! "OPENAI_MODEL_NAME")
         /\ (forall k : string,
               k <> "OPENAI_API_KEY" -> k <> "OPENAI_API_BASE" ->
               k <> "OPENAI_MODEL_NAME" ->
               env' !! k = environ w !! k)
    else assignments evs = [] /\ env' = environ w.
Proof.
  intros E kw w evs env'.
  destruct (validate_config_result E) eqn:Hv.
  - destruct (main_events E kw w Hv) as (sevs & Hq & Hevs).
    destruct (main_observed E kw w Hv) as (_ & _ & Henv & _).
    fold evs in Hevs. fold env' in Henv. rewrite Hevs, Henv.
    unfold assignments.
    rewrite omap_app, (omap_quiet _ sevs), Hq by reflexivity.
    rewrite (omap_in_try _ (run_events _));
      [|now intros [] | apply main_trace_kinds].
    unfold setup_steps, setup_environ.
    destruct (Config_USE_GROQ E); (split; [reflexivity|]).
    + splits.
      * rewrite !lookup_insert_ne by discriminate. apply lookup_insert_eq.
      * rewrite lookup_insert_ne by discriminate. apply lookup_insert_eq.
      * apply lookup_insert_eq.
      * intros k Hk Hb Hm. now rewrite !lookup_insert_ne by congruence.
    + splits.
      * rewrite lookup_insert_ne by discriminate. apply lookup_insert_eq.
      * apply lookup_insert_eq.
      * now rewrite !lookup_insert_ne by discriminate.
      * intros k Hk Hb Hm. now rewrite !lookup_insert_ne by congruence.
  - destruct (main_invalid_run E kw w Hv) as (ievs & Hrun & Hacts).
    subst evs env'. unfold events_of. rewrite Hrun.
    cbn [snd extend log environ]. rewrite drop_log. split; [|reflexivity].
    apply omap_no_acts; [now intros [] | exact Hacts].
Qed.

(** X3: how [main] ends.  With a configuration that does not validate it
    raises [SystemExit(1)].  Otherwise it returns normally when nothing is
    raised during crew execution and when what is raised is an instance of
    [Exception], and it raises what was raised when that is not one.  So a
    crew that fails with an [Exception] leaves the status of the process at
    0. *)
Theorem main_outcome :
  forall (E : Env) (kw : Kwargs) (w : World),
    let evs := events_of (main_kwargs E kw) w in
    fst (main_kwargs E kw w)
    = (if validate_config_result E
       then match failures evs with
            | [] => Returned tt
            | e :: _ => if is_Exception e then Returned tt else Raised e
            end
       else Raised (SystemExit 1))
    /\ (length (failures evs) <= 1)%nat
    /\ (forall e, failures evs = [e] -> is_Exception e = true ->
                  exit_status (fst (main_kwargs E kw w)) = 0%Z).
Proof.
  intros E kw w evs.
  destruct (validate_config_result E) eqn:Hv.
  - destruct (main_observed E kw w Hv)
      as (Hr & _ & _ & _ & _ & _ & _ & _ & Hf & _).
    fold evs in Hf. rewrite Hr, Hf.
    destruct (main_trace_course E kw (files w) (now_calls w))
      as [r x _ Kx _ _ _ _ _ _ Hh | r outs x _ _ Kx _ _ _ _ _ Hh
          | r outs x c _ _ Kx _ _ _ _ _ Hh | r outs _ _ Kx _ _ _ _ _ _ Kr];
      rewrite Kx; cbn [length];
      try (split; [exact Kr | split; [lia | discriminate]]);
      unfold handled in Hh;
      (split; [destruct (is_Exception x); apply Hh|]);
      (split; [lia|]);
      intros e [= <-] Hex; rewrite Hex in Hh; now rewrite (proj1 Hh).
  - destruct (main_unobserved E kw w Hv)
      as (Hr & _ & _ & _ & _ & _ & _ & Hf & _).
    fold evs in Hf. rewrite Hr, Hf. cbn.
    split; [reflexivity|]. split; [lia | discriminate].
Qed.

(** ** The protocol of the report file *)

Lemma file_run_app (a b : list event) :
  forall st,
    file_run st (a ++ b)
    = match file_run st a with
      | Some st' => file_run st' b
      | None => None
      end.
Proof.
  induction a as [|e a IH]; intros st; [reflexivity|].
  cbn. destruct (file_step st e); [apply IH | reflexivity].
Qed.

Lemma file_run_closed (evs : list event) :
  existsb touches_file evs = false -> file_run Closed evs = Some Closed.
Proof.
  induction evs as [|e evs IH]; [reflexivity|].
  cbn. intros [He Hevs]%orb_false_iff.
  destruct e; try discriminate He; cbn; auto.
Qed.

Lemma file_run_writes (E : Env) (f : string) (datas : list string) :
  forall content,
    file_run (Open f) (fst (fst (write_trace E f content datas)))
    = Some (match snd (write_trace E f content datas) with
            | None => Open f
            | Some _ => Failed f
            end).
Proof.
  induction datas as [|d rest IH]; intros content; [reflexivity|].
  simpl. destruct (os_write E f content d) as [e|].
  - cbn. now rewrite String.eqb_refl.
  - specialize (IH (content ++ d)).
    destruct (write_trace E f (content ++ d) rest) as [[evs c] r].
    cbn in *. now rewrite String.eqb_refl.
Qed.

Lemma file_run_report (E : Env) (f : string) (n : nat) (kw : Kwargs)
    (result : string) :
  file_run (Open f) (fst (fst (fst (report_trace E f n kw result))))
  = Some (match snd (report_trace E f n kw result) with
          | None => Open f
          | Some _ => Failed f
          end).
Proof.
  unfold report_trace.
  set (header := header_lines _ _ _ _ _).
  pose proof (file_run_writes E f header "") as H1.
  destruct (write_trace E f "" header) as [[evs1 c1] [e|]];
    cbn [fst snd] in *; [exact H1|].
  pose proof (file_run_writes E f (body_lines (clock E n) result) c1) as H2.
  destruct (write_trace E f c1 (body_lines (clock E n) result))
    as [[evs2 c2] r]; cbn [fst snd] in *.
  rewrite file_run_app, H1. exact H2.
Qed.

Lemma file_run_try (E : Env) (kw : Kwargs) (fs : gmap string string) (n : nat) :
  file_run Closed (run_events (main_trace E kw fs n)) = Some Closed.
Proof.
  enter_run E kw n.
  assert (Hq : forall st,
             file_run Closed (EvKickoff (crew_of kw)
                              :: fst (exec_trace E (five_tasks kw) "")
                              ++ [EvKickoffDone st])%list = Some Closed).
  { intros st. apply file_run_closed. cbn [existsb touches_file orb].
    rewrite existsb_app, existsb_exec by reflexivity. reflexivity. }
  destruct (exec_trace E (five_tasks kw) "") as [xevs [outs|e]];
    cbn [fst snd] in *.
  2:{ unfold guarded; cbn [run_result].
      destruct (is_Exception e); cbn [run_events];
        rewrite ?file_run_app, Hq; reflexivity. }
  set (path := path_str (output_path E kw n)).
  destruct (os_open E path) as [e|].
  { unfold guarded; cbn [run_result].
    destruct (is_Exception e); cbn [run_events];
      rewrite ?file_run_app, Hq; reflexivity. }
  pose proof (file_run_report E path (S n) kw (String.concat "" outs)) as Hw.
  destruct (report_trace E path (S n) kw (String.concat "" outs))
    as [[[wevs c] n'] [e|]]; cbn [fst snd] in *;
    unfold guarded; cbn [run_result];
    try destruct (is_Exception e); cbn [run_events];
    rewrite ?file_run_app, Hq; cbn; rewrite ?file_run_app, Hw; cbn;
    now rewrite String.eqb_refl.
Qed.

(** X4: the protocol of the report file.  In every run of [main] at most
    one file is open at a time; while it is open the script only writes to
    that file and reads the clock; nothing is written after a write that
    raised; and the file is closed when the writes are over, also when one
    of them raised.  At the end of the run no file is open. *)
Theorem report_file_protocol :
  forall (E : Env) (kw : Kwargs) (w : World),
    file_run Closed (events_of (main_kwargs E kw) w) = Some Closed.
Proof.
  intros E kw w. destruct (validate_config_result E) eqn:Hv.
  - destruct (main_events E kw w Hv) as (sevs & Hq & ->).
    rewrite file_run_app, file_run_closed; [apply file_run_try|].
    rewrite (existsb_quiet touches_file sevs), Hq by reflexivity.
    now destruct (setup_observed E kw)
      as (_ & _ & _ & _ & _ & _ & _ & _ & _ & _ & _ & Hw).
  - destruct (main_unobserved E kw w Hv)
      as (_ & _ & _ & _ & _ & _ & _ & _ & _ & _ & _ & Ht).
    now apply file_run_closed.
Qed.

(** A log the protocol rejects: a write after the file is closed. *)
Example write_after_close_rejected :
  file_run Closed [EvOpen "r.txt" None; EvClose "r.txt";
                   EvWrite "r.txt" "late" None] = None.
Proof. reflexivity. Qed.

(** ** The prompts of the crew *)

(** A slot [A ++ v ++ B] of a prompt: the value [v] between the end [A] of
    the text before it and the start [B] of the text after it. *)
Ltac here_slot :=
  match goal with
  | |- contains (?A ++ ?v ++ ?B) (?L ++ ?v ++ ?Ln ++ ?rest) =>
      let p := eval vm_compute in
                 (substring 0 (String.length L - String.length A) L) in
      let q := eval vm_compute in
                 (substring (String.length B)
                            (String.length Ln - String.length B) Ln) in
      exists p, (q ++ rest); rewrite !append_assoc_s; reflexivity
  | |- contains (?A ++ ?v ++ ?B) (?L ++ ?v ++ ?Ln) =>
      let p := eval vm_compute in
                 (substring 0 (String.length L - String.length A) L) in
      let q := eval vm_compute in
                 (substring (String.length B)
                            (String.length Ln - String.length B) Ln) in
      exists p, q; rewrite !append_assoc_s; reflexivity
  end.

Ltac find_slot := first [ here_slot | apply contains_skip; find_slot ].

(** X5: the task prompts are wired to the parameters of [main].  The crew
    that is kicked off has five tasks, and the description of each carries
    the parameters of [main] in the places its text names: the product name
    in all five, the category with the market research and the channel
    strategy, the product description with the research and the content
    strategy, the target audience with the first four, the value
    proposition with the content strategy, the objectives with the last
    three, the timeline with the campaign plan and the budget allocation,
    and the budget, rendered with grouped thousands after a dollar sign,
    with the budget allocation. *)
Theorem task_prompts_wired :
  forall (E : Env) (kw : Kwargs) (w : World),
    let evs := events_of (main_kwargs E kw) w in
    (if validate_config_result E then kickoffs evs <> [] else kickoffs evs = [])
    /\ Forall
         (fun c =>
            exists t1 t2 t3 t4 t5,
              tasks c = [t1; t2; t3; t4; t5]
              /\ contains ("market research for " ++ product_name kw ++ " (")
                          (description t1)
              /\ contains (" (" ++ product_category kw ++ "). ") (description t1)
              /\ contains ("Product description: " ++ product_description kw
                           ++ ". ") (description t1)
              /\ contains ("Target audience: " ++ target_audience kw ++ ". ")
                          (description t1)
              /\ contains ("content strategy for " ++ product_name kw ++ ". ")
                          (description t2)
              /\ contains ("Product: " ++ product_description kw ++ ". ")
                          (description t2)
              /\ contains ("Target audience: " ++ target_audience kw ++ ". ")
                          (description t2)
              /\ contains ("Unique value proposition: "
                           ++ unique_value_proposition kw ++ ". ")
                          (description t2)
              /\ contains ("channel strategy for " ++ product_name kw ++ " (")
                          (description t3)
              /\ contains (" (" ++ product_category kw ++ "). ") (description t3)
              /\ contains ("Target audience: " ++ target_audience kw ++ ". ")
                          (description t3)
              /\ contains ("Marketing objectives: " ++ marketing_objectives kw
                           ++ ". ") (description t3)
              /\ contains ("campaign plan for " ++ product_name kw
                           ++ " targeting ") (description t4)
              /\ contains (" targeting " ++ target_audience kw ++ ". ")
                          (description t4)
              /\ contains ("Campaign timeline: " ++ campaign_timeline kw ++ ". ")
                          (description t4)
              /\ contains ("Marketing objectives: " ++ marketing_objectives kw
                           ++ ". ") (description t4)
              /\ contains ("marketing budget for " ++ product_name kw
                           ++ " campaign. ") (description t5)
              /\ contains ("Total budget: $"
                           ++ format_comma_0f (total_budget kw) ++ ". ")
                          (description t5)
              /\ contains ("Marketing objectives: " ++ marketing_objectives kw
                           ++ ". ") (description t5)
              /\ contains ("Campaign timeline: " ++ campaign_timeline kw ++ ". ")
                          (description t5))
         (kickoffs evs).
Proof.
  intros E kw w evs.
  destruct (validate_config_result E) eqn:Hv.
  2:{ destruct (main_unobserved E kw w Hv) as (_ & _ & _ & _ & _ & Hk & _).
      fold evs in Hk. rewrite Hk. split; [reflexivity | constructor]. }
  destruct (main_observed E kw w Hv) as (_ & _ & _ & _ & _ & _ & Hk & _).
  fold evs in Hk. rewrite Hk. split; [discriminate|].
  constructor; [|constructor].
  do 5 eexists. split; [reflexivity|].
  cbn [description market_research_task_of content_strategy_task_of
       channel_strategy_task_of campaign_plan_task_of
       budget_allocation_task_of].
  splits; find_slot.
Qed.

(** X6: the agent prompts are wired to the parameters of [main].  The crew
    that is kicked off has five agents, and the goal and the backstory of
    each carry the product name, the category and the target audience of
    the run in the places their texts name. *)
Theorem agent_prompts_wired :
  forall (E : Env) (kw : Kwargs) (w : World),
    let evs := events_of (main_kwargs E kw) w in
    (if validate_config_result E then kickoffs evs <> [] else kickoffs evs = [])
    /\ Forall
         (fun c =>
            exists a1 a2 a3 a4 a5,
              agents c = [a1; a2; a3; a4; a5]
              /\ contains ("market research for " ++ product_name kw
                           ++ " in the ") (goal a1)
              /\ contains (" in the " ++ product_category kw ++ " category. ")
                          (goal a1)
              /\ contains ("experience in " ++ product_category kw
                           ++ " markets. ") (backstory a1)
              /\ contains ("brand voice for " ++ product_name kw
                           ++ " targeting ") (goal a2)
              /\ contains (" targeting " ++ target_audience kw ++ ". ")
                          (goal a2)
              /\ contains ("specializing in " ++ target_audience kw
                           ++ " marketing. ") (backstory a2)
              /\ contains ("tactics for " ++ product_category kw
                           ++ " targeting ") (goal a3)
              /\ contains (" targeting " ++ target_audience kw ++ ". ")
                          (goal a3)
              /\ contains ("experience in " ++ product_category kw
                           ++ " marketing. ") (backstory a3)
              /\ contains ("campaign plans for " ++ product_name kw
                           ++ " targeting ") (goal a4)
              /\ contains (" targeting " ++ target_audience kw ++ ". ")
                          (goal a4)
              /\ contains ("activities for " ++ product_category kw
                           ++ " products. ") (goal a5)
              /\ contains ("ROI analysis for " ++ product_category kw
                           ++ " markets. ") (backstory a5))
         (kickoffs evs).
Proof.
  intros E kw w evs.
  destruct (validate_config_result E) eqn:Hv.
  2:{ destruct (main_unobserved E kw w Hv) as (_ & _ & _ & _ & _ & Hk & _).
      fold evs in Hk. rewrite Hk. split; [reflexivity | constructor]. }
  destruct (main_observed E kw w Hv) as (_ & _ & _ & _ & _ & _ & Hk & _).
  fold evs in Hk. rewrite Hk. split; [discriminate|].
  constructor; [|constructor].
  do 5 eexists. split; [reflexivity|].
  cbn [goal backstory market_research_agent_of content_strategist_agent_of
       channel_specialist_agent_of campaign_planner_agent_of
       budget_analyst_agent_of].
  splits; find_slot.
Qed.

(** ** The name of the report *)

Lemma map_map_s (f g : ascii -> ascii) (s : string) :
  PyStr.map f (PyStr.map g s) = PyStr.map (fun c => f (g c)) s.
Proof. induction s as [|c s IH]; simpl; [reflexivity | now rewrite IH]. Qed.


Lemma all_chars_map (p : ascii -> bool) (f : ascii -> ascii) (s : string) :
  (forall c, p (f c) = true) -> all_chars p (PyStr.map f s) = true.
Proof.
  intros Hf. induction s as [|c s IH]; simpl; [reflexivity|].
  now rewrite Hf, IH.
Qed.

Lemma append_inv_head (a b c : string) : a ++ b = a ++ c -> b = c.
Proof.
  induction a as [|x a IH]; [auto|].
  rewrite !append_cons. intros [= H]. auto.
Qed.

Lemma sanitised_map (s : string) :
  lower (replace " " "_" s) = PyStr.map name_char s.
Proof. unfold lower, replace. rewrite map_map_s. reflexivity. Qed.

Ltac every_char c := destruct c as [[] [] [] [] [] [] [] []]; reflexivity.

Lemma name_char_plain (c : ascii) :
  negb (is_upper (name_char c)) && negb (Ascii.eqb (name_char c) " ") = true.
Proof. every_char c. Qed.




Lemma digit_is_digit (n : nat) : is_digit (digit n) = true.
Proof.
  unfold digit.
  assert (Hn : (n mod 10 < 10)%nat) by (apply Nat.mod_upper_bound; lia).
  revert Hn. generalize (n mod 10)%nat. intros m Hm.
  do 10 (destruct m as [|m]; [reflexivity|]). lia.
Qed.

Lemma pad2_digits (n : nat) : all_chars is_digit (pad2 n) = true.
Proof. unfold pad2. cbn [all_chars]. now rewrite !digit_is_digit. Qed.

Lemma pad4_digits (n : nat) : all_chars is_digit (pad4 n) = true.
Proof.
  unfold pad4. cbn [all_chars]. now rewrite !digit_is_digit, pad2_digits.
Qed.

Lemma digits_plain (s : string) :
  all_chars is_digit s = true -> all_chars plain_char s = true.
Proof.
  apply all_chars_weaken. intros c.
  destruct c as [[] [] [] [] [] [] [] []]; vm_compute; congruence.
Qed.

(** X7: the name of the report is plain.  Whatever the product name, the
    name of the report holds no space and no capital ASCII letter. *)
Theorem report_name_plain :
  forall (product_name : string) (now : datetime),
    all_chars plain_char (report_name product_name now) = true
    /\ has_char " " (report_name product_name now) = false.
Proof.
  intros p t.
  assert (Hplain : all_chars plain_char (report_name p t) = true).
  { unfold report_name. rewrite strftime_stamp, sanitised_map.
    rewrite !all_chars_app, all_chars_map by apply name_char_plain.
    rewrite (digits_plain _ (pad4_digits _)), !(digits_plain _ (pad2_digits _)).
    reflexivity. }
  split; [exact Hplain|].
  apply (all_chars_no_char plain_char); [reflexivity | exact Hplain].
Qed.




Lemma digit_inj (a b : nat) :
  digit a = digit b -> (a mod 10 = b mod 10)%nat.
Proof.
  unfold digit. intros H. apply (f_equal nat_of_ascii) in H.
  assert (Ha : (a mod 10 < 10)%nat) by (apply Nat.mod_upper_bound; lia).
  assert (Hb : (b mod 10 < 10)%nat) by (apply Nat.mod_upper_bound; lia).
  rewrite !nat_ascii_embedding in H by lia. lia.
Qed.

Lemma two_digits (a b : nat) :
  (a < 100 -> b < 100 ->
   (a / 10) mod 10 = (b / 10) mod 10 -> a mod 10 = b mod 10 -> a = b)%nat.
Proof.
  intros Ha Hb Hq Hr.
  assert (Hqa : (a / 10 < 10)%nat) by (apply Nat.Div0.div_lt_upper_bound; lia).
  assert (Hqb : (b / 10 < 10)%nat) by (apply Nat.Div0.div_lt_upper_bound; lia).
  rewrite !Nat.mod_small in Hq by assumption.
  rewrite (Nat.div_mod_eq a 10), (Nat.div_mod_eq b 10). now rewrite Hq, Hr.
Qed.

Lemma four_digits (a b : nat) :
  (a < 100 * 100 -> b < 100 * 100 ->
   (a / 1000) mod 10 = (b / 1000) mod 10 ->
   (a / 100) mod 10 = (b / 100) mod 10 ->
   (a / 10) mod 10 = (b / 10) mod 10 -> a mod 10 = b mod 10 -> a = b)%nat.
Proof.
  intros Ha Hb H3 H2 H1 H0.
  assert (Hh : (a / 100 = b / 100)%nat).
  { apply two_digits; [apply Nat.Div0.div_lt_upper_bound; lia
                       |apply Nat.Div0.div_lt_upper_bound; lia| |exact H2].
    now rewrite !Nat.Div0.div_div. }
  assert (Hm : (a mod 100 = b mod 100)%nat).
  { change 100%nat with (10 * 10)%nat.
    rewrite !Nat.Div0.mod_mul_r. now rewrite H1, H0. }
  transitivity (100 * (a / 100) + a mod 100)%nat; [apply Nat.div_mod_eq|].
  rewrite Hh, Hm. symmetry. apply Nat.div_mod_eq.
Qed.

(** The time stamp determines the time. *)
Lemma stamp_inj (t1 t2 : datetime) (rest : string) :
  valid_datetime t1 = true -> valid_datetime t2 = true ->
  strftime "%Y%m%d_%H%M%S" t1 ++ rest = strftime "%Y%m%d_%H%M%S" t2 ++ rest ->
  t1 = t2.
Proof.
  unfold valid_datetime. intros H1 H2.
  repeat match goal with
         | H : _ && _ = true |- _ => apply andb_prop in H as [H ?]
         end.
  repeat match goal with
         | H : (_ <=? _)%nat = true |- _ => apply Nat.leb_le in H
         | H : (_ <? _)%nat = true |- _ => apply Nat.ltb_lt in H
         end.
  rewrite !strftime_stamp. unfold pad4, pad2.
  rewrite !append_assoc_s, !append_cons, !append_empty_l.
  intros Heq. injection Heq as Hy3 Hy2 Hy1 Hy0 Hm1 Hm0 Hd1 Hd0 Hh1 Hh0 Hi1 Hi0
                               Hs1 Hs0.
  destruct t1 as [y1 m1 d1 h1 i1 s1], t2 as [y2 m2 d2 h2 i2 s2]. simpl in *.
  apply digit_inj in Hy3, Hy2, Hy1, Hy0, Hm1, Hm0, Hd1, Hd0, Hh1, Hh0, Hi1, Hi0,
                     Hs1, Hs0.
  f_equal; first [ apply four_digits; assumption
                 | apply two_digits; (assumption || lia) ].
Qed.

(** X9: the time stamp keeps runs apart.  For one product name, two runs
    whose clock readings differ (and have years of four digits) name their
    reports differently, so neither overwrites the report of the other. *)
Theorem report_names_differ :
  forall (product_name : string) (t1 t2 : datetime),
    valid_datetime t1 = true -> valid_datetime t2 = true ->
    t1 <> t2 ->
    report_name product_name t1 <> report_name product_name t2.
Proof.
  intros p t1 t2 H1 H2 Hne Heq. apply Hne. unfold report_name in Heq.
  do 3 apply append_inv_head in Heq.
  exact (stamp_inj t1 t2 ".txt" H1 H2 Heq).
Qed.

(** X9 on two readings of the sample clock, one second apart. *)
Lemma report_names_differ_witness :
  valid_datetime (sample_clock 0) = true
  /\ valid_datetime (sample_clock 1) = true
  /\ sample_clock 0 <> sample_clock 1
  /\ report_name "AI-Powered Task Manager" (sample_clock 0)
     <> report_name "AI-Powered Task Manager" (sample_clock 1).
Proof.
  assert (H0 : valid_datetime (sample_clock 0) = true) by reflexivity.
  assert (H1 : valid_datetime (sample_clock 1) = true) by reflexivity.
  assert (Hne : sample_clock 0 <> sample_clock 1) by discriminate.
  split; [exact H0|]. split; [exact H1|]. split; [exact Hne|].
  exact (report_names_differ "AI-Powered Task Manager" _ _ H0 H1 Hne).
Defined.

(** ** What the run announces *)

(** Nothing of the kind is printed before the [try] statement. *)
Lemma main_setup_unannounced (E : Env) (kw : Kwargs) (w : World) :
  validate_config_result E = true ->
  exists sevs,
    main_kwargs E kw w
    = try_except_Exception
        (execute_crew E (crew_of kw) (product_name kw) (product_category kw)
                      (target_audience kw) (campaign_timeline kw)
                      (total_budget kw))
        (report_error)
        (mk_World (setup_environ E (environ w)) (files w) (now_calls w)
                  (log w ++ sevs)%list)
    /\ existsb announces_saved sevs = false.
Proof.
  intros Hv. destruct E as [v k b g m sd cl ex oo ow fl].
  simpl in Hv. subst v. destruct kw as [pn pc pd ta uv mo ct tb].
  destruct g; eexists;
    (split; [run_straight; gather_log; reflexivity | reflexivity]).
Qed.

Lemma main_events_unannounced (E : Env) (kw : Kwargs) (w : World) :
  validate_config_result E = true ->
  exists sevs,
    existsb announces_saved sevs = false
    /\ events_of (main_kwargs E kw) w
       = (sevs ++ run_events (main_trace E kw (files w) (now_calls w)))%list.
Proof.
  intros Hv. destruct (main_setup_unannounced E kw w Hv) as (sevs & Hrun & Ha).
  exists sevs. split; [exact Ha|].
  unfold events_of. rewrite Hrun, try_except_run.
  unfold world_after, main_trace. cbn [snd log].
  rewrite <- app_assoc. apply drop_log.
Qed.

Lemma main_trace_announcement (E : Env) (kw : Kwargs) (fs : gmap string string)
    (n : nat) :
  existsb announces_saved (run_events (main_trace E kw fs n))
  = match run_result (main_trace E kw fs n),
          failures (run_events (main_trace E kw fs n)) with
    | Returned _, [] => true
    | _, _ => false
    end.
Proof.
  enter_run E kw n.
  destruct (exec_trace E (five_tasks kw) "") as [xevs [outs|e]];
    cbn [fst snd] in *.
  2:{ unfold guarded; cbn [run_result].
      destruct (is_Exception e); observe; reflexivity. }
  set (path := path_str (output_path E kw n)).
  destruct (os_open E path) as [e|].
  { unfold guarded; cbn [run_result].
    destruct (is_Exception e); observe; reflexivity. }
  pose proof (report_trace_events E path (S n) kw (String.concat "" outs)) as Hw.
  pose proof (report_trace_spec E path (S n) kw (String.concat "" outs)) as Hs.
  destruct (report_trace E path (S n) kw (String.concat "" outs))
    as [[[wevs c] n'] [e|]]; cbn [fst] in *.
  - unfold guarded; cbn [run_result].
    destruct (is_Exception e); observe; reflexivity.
  - destruct Hs as (Hf & _). unfold guarded; cbn [run_result].
    observe. reflexivity.
Qed.

Lemma main_invalid_unannounced (E : Env) (kw : Kwargs) (w : World) :
  validate_config_result E = false ->
  exists evs,
    main_kwargs E kw w = (Raised (SystemExit 1), extend w evs)
    /\ existsb announces_saved evs = false.
Proof.
  intros Hv. destruct E as [v k b g m sd cl ex oo ow fl].
  simpl in Hv. subst v. destruct kw as [pn pc pd ta uv mo ct tb].
  eexists. split.
  - run_straight. gather_log. reflexivity.
  - reflexivity.
Qed.

(** X10: the run announces the report as saved exactly when it was.  The
    line "Marketing strategy saved to" is printed if and only if [main]
    returns and nothing was raised during crew execution; and when it is
    printed, the file at the path of the report holds the whole report:
    the header, the outputs of the five tasks and the closing rule. *)
Theorem saved_announced_iff_saved :
  forall (E : Env) (kw : Kwargs) (w : World),
    let evs := events_of (main_kwargs E kw) w in
    let path := path_str (output_path E kw (now_calls w)) in
    existsb announces_saved evs
    = match fst (main_kwargs E kw w), failures evs with
      | Returned _, [] => true
      | _, _ => false
      end
    /\ (existsb announces_saved evs = true ->
        files (snd (main_kwargs E kw w)) !! path
        = Some (report_text kw (clock E (S (now_calls w)))
                            (String.concat "" (outputs evs)))).
Proof.
  intros E kw w evs path.
  destruct (validate_config_result E) eqn:Hv.
  2:{ destruct (main_invalid_unannounced E kw w Hv) as (ievs & Hrun & Ha).
      assert (Hevs : evs = ievs).
      { subst evs. unfold events_of. rewrite Hrun. cbn [snd extend log].
        apply drop_log. }
      rewrite Hevs, Ha, Hrun. cbn [fst]. split; [reflexivity | discriminate]. }
  destruct (main_events_unannounced E kw w Hv) as (sevs & Ha & Hevs).
  destruct (main_observed E kw w Hv)
    as (Hr & Hfs & _ & _ & _ & _ & _ & Hx & Hf & _).
  fold evs in Hevs, Hx, Hf.
  assert (Hsaid : existsb announces_saved evs
                  = match fst (main_kwargs E kw w), failures evs with
                    | Returned _, [] => true
                    | _, _ => false
                    end).
  { rewrite Hr, Hf, Hevs, existsb_app, Ha. apply main_trace_announcement. }
  split; [exact Hsaid|]. rewrite Hsaid, Hr, Hf, Hfs.
  unfold outputs. rewrite Hx.
  destruct (main_trace_course E kw (files w) (now_calls w))
    as [r x _ Kx _ _ _ _ _ _ Hh | r outs x _ _ Kx _ _ _ _ _ Hh
        | r outs x c _ _ Kx _ _ _ _ _ Hh | r outs Hxt _ Kx _ _ _ _ _ Kf Kr];
    rewrite Kx;
    try (destruct (run_result r); discriminate).
  intros _. rewrite Kf. fold path.
  destruct (all_tasks_return E _ _ _ Hxt) as (_ & Hout & _).
  rewrite Hout. apply lookup_insert_eq.
Qed.

(** The sample run announces its report; the run that cannot create it
    does not. *)
Example sample_announcements :
  existsb announces_saved
    (events_of (main_kwargs sample_env default_kwargs) empty_world) = true
  /\ existsb announces_saved
       (events_of (main_kwargs refusing_env default_kwargs) empty_world)
     = false.
Proof. split; vm_compute; reflexivity. Qed.

(** ** The order of a run *)

Lemma ascending_cons (a : nat) (l : list nat) :
  Forall (fun x => a <= x)%nat l -> ascending l = true ->
  ascending (a :: l) = true.
Proof.
  intros Hl Ha. destruct l as [|b l]; [reflexivity|].
  apply List.Forall_inv in Hl as Hb. cbn [ascending].
  apply andb_true_intro. split; [now apply Nat.leb_le | exact Ha].
Qed.

Lemma ascending_app (m : nat) (a b : list nat) :
  ascending a = true -> Forall (fun x => x <= m)%nat a ->
  Forall (fun x => m <= x)%nat b -> ascending b = true ->
  ascending (a ++ b) = true.
Proof.
  intros Ha Hm Hb Hab. induction a as [|x a IH]; [exact Hab|].
  pose proof (List.Forall_inv Hm) as Hx. cbn beta in Hx.
  apply List.Forall_inv_tail in Hm.
  cbn [app]. apply ascending_cons.
  - apply Forall_app. split.
    + destruct a as [|y a']; [constructor|].
      cbn [ascending] in Ha. apply andb_prop in Ha as [Hxy Ha].
      apply Nat.leb_le in Hxy. clear IH.
      revert y Hxy Ha Hm. induction a' as [|z a' IH]; intros y Hxy Ha Hm.
      * now repeat constructor.
      * cbn [ascending] in Ha. apply andb_prop in Ha as [Hyz Ha].
        apply Nat.leb_le in Hyz. constructor; [exact Hxy|].
        apply (IH z); [lia | exact Ha |].
        exact (List.Forall_inv_tail Hm).
    + eapply List.Forall_impl; [|exact Hb]. cbn beta. intros y Hy. lia.
  - apply IH; [|exact Hm].
    destruct a as [|y a']; [reflexivity|].
    cbn [ascending] in Ha. now apply andb_prop in Ha as [_ Ha].
Qed.

(** The phases of a list of events that are all of phase [k]. *)
Lemma phases_const (k : nat) (evs : list event) :
  Forall (fun e => phase e = Some k) evs ->
  omap phase evs = repeat k (length evs).
Proof.
  induction 1 as [|e evs He _ IH]; [reflexivity|].
  cbn. now rewrite He, IH.
Qed.

Lemma ascending_repeat (k n : nat) (l : list nat) :
  Forall (fun x => k <= x)%nat l -> ascending l = true ->
  ascending (repeat k n ++ l) = true.
Proof.
  intros Hl Ha. induction n as [|n IH]; [exact Ha|].
  cbn [repeat app]. apply ascending_cons; [|exact IH].
  apply Forall_app. split; [|exact Hl].
  clear. induction n; now constructor.
Qed.

Lemma above_repeat (m k n : nat) (l : list nat) :
  (m <= k)%nat -> Forall (fun x => m <= x)%nat l ->
  Forall (fun x => m <= x)%nat (repeat k n ++ l).
Proof.
  intros Hk Hl. apply Forall_app. split; [|exact Hl].
  induction n; now constructor.
Qed.

Ltac in_order :=
  repeat first
    [ apply ascending_cons
    | apply ascending_repeat
    | apply above_repeat
    | apply Forall_nil; exact I
    | constructor
    | lia
    | reflexivity ].

Lemma main_trace_in_order (E : Env) (kw : Kwargs) (fs : gmap string string)
    (n : nat) :
  ascending (omap phase (run_events (main_trace E kw fs n))) = true
  /\ Forall (fun x => 6 <= x)%nat
            (omap phase (run_events (main_trace E kw fs n))).
Proof.
  enter_run E kw n.
  assert (Hx7 : Forall (fun e => phase e = Some 7%nat)
                       (fst (exec_trace E (five_tasks kw) ""))).
  { eapply List.Forall_impl; [|exact Hx]. now intros []. }
  destruct (exec_trace E (five_tasks kw) "") as [xevs [outs|e]];
    cbn [fst snd] in *.
  2:{ unfold guarded; cbn [run_result].
      destruct (is_Exception e); cbn [run_events]; unfold error_report;
        rewrite ?omap_app; cbn [omap list_omap phase app];
        rewrite omap_app, (phases_const 7 xevs Hx7);
        cbn [omap list_omap phase app];
        repeat (rewrite <- (app_assoc (A := nat)); cbn [app]);
        split; in_order. }
  set (path := path_str (output_path E kw n)).
  destruct (os_open E path) as [e|].
  { unfold guarded; cbn [run_result].
    destruct (is_Exception e); cbn [run_events];
      unfold error_report, completed_prints;
      rewrite ?omap_app; cbn [omap list_omap phase app];
      rewrite ?omap_app, (phases_const 7 xevs Hx7);
      cbn [omap list_omap phase app];
        repeat (rewrite <- (app_assoc (A := nat)); cbn [app]);
        split; in_order. }
  pose proof (report_trace_events E path (S n) kw (String.concat "" outs)) as Hw.
  assert (Hw9 : Forall (fun e => phase e = Some 9%nat)
                  (fst (fst (fst (report_trace E path (S n) kw
                                    (String.concat "" outs)))))).
  { eapply List.Forall_impl; [|exact Hw]. now intros []. }
  destruct (report_trace E path (S n) kw (String.concat "" outs))
    as [[[wevs c] n'] [e|]]; cbn [fst] in *;
    unfold guarded; cbn [run_result];
    try destruct (is_Exception e); cbn [run_events];
    unfold error_report, completed_prints, saved_prints;
    rewrite ?omap_app; cbn [omap list_omap phase app];
    rewrite ?omap_app, (phases_const 7 xevs Hx7), (phases_const 9 wevs Hw9);
    cbn [omap list_omap phase app];
        repeat (rewrite <- (app_assoc (A := nat)); cbn [app]);
        split; in_order.
Qed.

Lemma main_invalid_phases (E : Env) (kw : Kwargs) (w : World) :
  validate_config_result E = false ->
  exists evs,
    main_kwargs E kw w = (Raised (SystemExit 1), extend w evs)
    /\ omap phase evs = [0%nat].
Proof.
  intros Hv. destruct E as [v k b g m sd cl ex oo ow fl].
  simpl in Hv. subst v. destruct kw as [pn pc pd ta uv mo ct tb].
  eexists. split.
  - run_straight. gather_log. reflexivity.
  - reflexivity.
Qed.

(** X11: a run goes through its phases in order and never back.  What
    [main] does besides printing comes in this order: the validation of
    the configuration, the assignments to the environment, the summary of
    the configuration, the creation of the agents, of the tasks and of the
    crew, the call of [kickoff], the execution of the tasks, the end of
    [kickoff], the saving of the report, the traceback.  In particular the
    environment is set before the first agent is created, and the report
    is opened only after [kickoff] has ended. *)
Theorem run_in_phases :
  forall (E : Env) (kw : Kwargs) (w : World),
    ascending (omap phase (events_of (main_kwargs E kw) w)) = true.
Proof.
  intros E kw w. destruct (validate_config_result E) eqn:Hv.
  - destruct (main_events E kw w Hv) as (sevs & Hq & ->).
    rewrite omap_app, (omap_quiet phase sevs), Hq by reflexivity.
    destruct (main_trace_in_order E kw (files w) (now_calls w)) as [Ha Hb].
    apply (ascending_app 6); [| |exact Hb|exact Ha];
      unfold setup_steps; destruct (Config_USE_GROQ E);
      cbn [omap list_omap phase app five_agents five_tasks List.map];
      in_order.
  - destruct (main_invalid_phases E kw w Hv) as (ievs & Hrun & Hp).
    unfold events_of. rewrite Hrun. cbn [snd extend log].
    now rewrite drop_log, Hp.
Qed.
